(** * PrefsCodeHints: preference code hints for brackets.json

    A shallow embedding of
    [src/extensions/default/PrefsCodeHints/main.js]: the registry of known
    preferences ([data]), the activation test ([hasHints]), the candidate
    resolver ([getHints] with [formatHints]) and the insertion engine
    ([insertHint]).

    The collaborators the module obtains through [brackets.getModule]
    (JSONUtils, StringMatch, CodeInspection, ThemeManager, LanguageManager,
    Strings) are not part of the file; they are Section variables, so that
    every statement holds for all of them. *)

From Stdlib Require Import List String Ascii ZArith Bool Lia Permutation.
From Stdlib Require Import Numbers.DecimalString.
Import ListNotations.

Open Scope string_scope.
Open Scope Z_scope.

(* ================================================================= *)
(** ** JavaScript values used by the module *)

(** A property that holds a string, or is [undefined]/[null] ([None]).
    Every test the module makes on such a property is a truthiness test, a
    strict comparison with a string literal or an [indexOf] among string
    literals, and none of them separates [undefined] from [null]. *)
Definition JsString := option string.

(** Truthiness: [undefined], [null] and the empty string are falsy. *)
Definition truthy (v : JsString) : bool :=
  match v with
  | Some s => negb (s =? EmptyString)%string
  | None => false
  end.

(** [a || b] on string-or-undefined operands. *)
Definition js_or (a b : JsString) : JsString :=
  if truthy a then a else b.

(** [v === "lit"]. *)
Definition is_str (v : JsString) (lit : string) : bool :=
  match v with
  | Some s => (s =? lit)%string
  | None => false
  end.

(** [[l0, l1, ...].indexOf(s) !== -1] on an array of strings. *)
Definition includes (l : list string) (s : string) : bool :=
  existsb (String.eqb s) l.

(** [[l0, l1, ...].indexOf(v) !== -1] when [v] may be undefined. *)
Definition includes_js (l : list string) (v : JsString) : bool :=
  match v with
  | Some s => includes l s
  | None => false
  end.

(** String conversion in a concatenation [v + "..."]. *)
Definition js_concat_operand (v : JsString) : string :=
  match v with
  | Some s => s
  | None => "undefined"
  end.

(** [s.charAt(0)]: the first character as a string, the empty string when
    [s] is empty. *)
Definition charAt0 (s : string) : string :=
  match s with
  | EmptyString => EmptyString
  | String c _ => String c EmptyString
  end.

(** [s.substr(0, n)]: at most [n] leading characters, none when [n <= 0]. *)
Definition substr0 (s : string) (n : Z) : string :=
  String.substring 0 (Z.to_nat n) s.

(** The test of the regular expression that accepts exactly the
    one-character strings made of a single or a double quote. *)
Definition isQuoteChar (s : string) : bool :=
  ((s =? "'") || (s =? String (ascii_of_nat 34) EmptyString))%string.

(** The double quote as a one-character string. *)
Definition dquote : string := String (ascii_of_nat 34) EmptyString.

(** White space removed by [String.prototype.trim], on byte strings: tab,
    line feed, vertical tab, form feed, carriage return and space. *)
Definition isSpace (c : ascii) : bool :=
  let n := nat_of_ascii c in
  ((9 <=? n)%nat && (n <=? 13)%nat) || (n =? 32)%nat.

Fixpoint trimStart (s : string) : string :=
  match s with
  | EmptyString => EmptyString
  | String c s' => if isSpace c then trimStart s' else s
  end.

Fixpoint trimEnd (s : string) : string :=
  match s with
  | EmptyString => EmptyString
  | String c s' =>
      match trimEnd s' with
      | EmptyString => if isSpace c then EmptyString else String c EmptyString
      | t => String c t
      end
  end.

Definition trim (s : string) : string := trimEnd (trimStart s).

(** A JS object read as a map from property names to values: the pairs in
    the order [Object.keys] lists them, which for names that are not array
    indices is the order of insertion. *)
Definition JsObject (A : Type) := list (string * A).

Definition Object_keys {A} (o : JsObject A) : list string := map fst o.

(** [o[k]] among the own properties of [o], [None] standing for
    [undefined]. A plain object also answers for the names it inherits
    from [Object.prototype] ([objectPrototypeNames] below); a statement
    that reads [o[k]] off [get] says so by keeping [k] out of them. *)
Fixpoint get {A} (o : JsObject A) (k : string) : option A :=
  match o with
  | [] => None
  | (k', v) :: o' => if (k' =? k)%string then Some v else get o' k
  end.

(** [o[k] = v]: an existing property keeps its place, a new one goes last.
    This is the order of [Object.keys] for names that are not array
    indices; names written with digits only are listed first by the
    engine and are kept out by the statements about the order. *)
Fixpoint set {A} (o : JsObject A) (k : string) (v : A) : JsObject A :=
  match o with
  | [] => [(k, v)]
  | (k', v') :: o' =>
      if (k' =? k)%string then (k', v) :: o' else (k', v') :: set o' k v
  end.

(** A candidate value: the entries of a preference's [values] array are
    strings or numbers. Numbers are the integers the module's own comment
    speaks of ("Convert integers to strings"). *)
Inductive HintValue :=
| VStr (s : string)
| VNum (n : Z).

(** [val.toString()]. For a number this is its decimal writing, which is
    what [Number.prototype.toString] gives for the integers up to
    [Number.MAX_SAFE_INTEGER] in magnitude ([safeInteger] below). *)
Definition toString (v : HintValue) : string :=
  match v with
  | VStr s => s
  | VNum n => NilZero.string_of_int (Z.to_int n)
  end.

(* ================================================================= *)
(** ** Preferences and the registry [data] *)

(** The descriptor the value branch calls [option]: an entry of a [keys]
    map, or a root preference read as one. *)
Record PrefOption := mkOption {
  type : JsString;
  description : JsString;
  values : option (list HintValue);
  valueType : JsString
}.

(** A preference as [PreferencesManager.getAllPreferences] lists it, and an
    entry of [data]. A field that is [None] is an undefined property. *)
Record Preference := mkPreference {
  opt : PrefOption;
  keys : option (JsObject PrefOption);
  excludeFromHints : option bool
}.

(** Truthiness of a boolean property that may be undefined. *)
Definition isTrue (b : option bool) : bool :=
  match b with
  | Some true => true
  | _ => false
  end.

(** [option = {type: null, description: null, values: null}]. *)
Definition noOption : PrefOption := mkOption None None None None.

(** Field by field, [$.extend] copies every property of the source that is
    not undefined; the others keep the target's value. Here a field is a
    value or undefined; the fields that hold [null] are in the model of
    [RawPreference] below. *)
Definition extendField {A} (target src : option A) : option A :=
  match src with
  | Some _ => src
  | None => target
  end.

(** [$.extend(target, preference)]. An undefined target is replaced by a
    fresh empty object. *)
Definition extend (target : option Preference) (preference : Preference)
  : Preference :=
  let t := match target with
           | Some t => t
           | None => mkPreference noOption None None
           end in
  mkPreference
    (mkOption (extendField (type (opt t)) (type (opt preference)))
              (extendField (description (opt t)) (description (opt preference)))
              (extendField (values (opt t)) (values (opt preference)))
              (extendField (valueType (opt t)) (valueType (opt preference))))
    (extendField (keys t) (keys preference))
    (extendField (excludeFromHints t) (excludeFromHints preference)).

Section Registry.

(** [Strings.DESCRIPTION_LANGUAGE] and [Strings.DESCRIPTION_PATH]. *)
Variables DESCRIPTION_LANGUAGE DESCRIPTION_PATH : string.

(** The initial value of [data]. *)
Definition data0 : JsObject Preference :=
  [ ("language",
     mkPreference (mkOption (Some "object") (Some DESCRIPTION_LANGUAGE)
                            None None) None None);
    ("path",
     mkPreference (mkOption (Some "object") (Some DESCRIPTION_PATH)
                            None None) None None) ].

(** The body of the [forEach] callback of the constructor, for the
    preference called [pref]. *)
Definition addPreference (preferences : JsObject Preference)
           (data : JsObject Preference) (pref : string)
  : JsObject Preference :=
  match get preferences pref with
  | None => data
  | Some preference =>
      if isTrue (excludeFromHints preference) then data
      else
        let merged := extend (get data pref) preference in
        let data1 := set data pref merged in
        match keys preference with
        | Some ks =>
            (* data[pref].keys = _.clone(preference.keys) *)
            set data1 pref (mkPreference (opt merged) (Some ks)
                                         (excludeFromHints merged))
        | None => data1
        end
  end.

(** The constructor [PrefsCodeHints], as far as it changes [data]: one pass
    over [Object.keys(preferences)]. *)
Definition PrefsCodeHints_data (preferences : JsObject Preference)
           (data : JsObject Preference) : JsObject Preference :=
  fold_left (addPreference preferences) (Object_keys preferences) data.

End Registry.

(* ================================================================= *)
(** ** Contexts, editors and match records *)

(** [JSONUtils.TOKEN_KEY] and [JSONUtils.TOKEN_VALUE]. *)
Inductive TokenKind := TOKEN_KEY | TOKEN_VALUE.

Definition TokenKind_eqb (a b : TokenKind) : bool :=
  match a, b with
  | TOKEN_KEY, TOKEN_KEY | TOKEN_VALUE, TOKEN_VALUE => true
  | _, _ => false
  end.

(** [ctxInfo.token]: its [string], [start] and [end]. *)
Record Token := mkToken {
  tstring : string;
  tstart : Z;
  tend : Z
}.

(** The context [JSONUtils.getContextInfo] returns. [tokenType] is [None]
    when the property is missing or falsy. *)
Record ContextInfo := mkContext {
  token : Token;
  tokenType : option TokenKind;
  offset : Z;
  keyName : string;
  parentKeyName : string;
  isArray : bool;
  exclusionList : list string;
  shouldReplace : bool
}.

Record Pos := mkPos { line : Z; ch : Z }.

(** The editor as the module sees it: the text of its document (by line),
    the cursor and the mode at the selection. *)
Record Editor := mkEditor {
  lines : list string;
  getCursorPos : Pos;
  getModeForSelection : string
}.

(** The calls [insertHint] makes on the editor and its document. *)
Inductive EditorOp :=
| ReplaceRange (newText : string) (from to : Pos)
| SetCursorPos (l c : Z).

Record StringRange := mkRange { text : string; matched : bool }.

(** A result of [StringMatch.stringMatch], with the [type] and
    [description] that [getHints] stores on it. [value] is the property
    [formatHints] falls back on when there are no [stringRanges]. *)
Record SearchResult := mkResult {
  label : HintValue;
  stringRanges : option (list StringRange);
  value : JsString;
  matchGoodness : Z;
  match_type : JsString;
  match_description : JsString
}.

Definition withMeta (m : SearchResult) (ty desc : JsString) : SearchResult :=
  mkResult (label m) (stringRanges m) (value m) (matchGoodness m) ty desc.

(** What [formatHints] builds for one hint: the spans appended to the
    [hint-obj] element, the [type] stored with [data], and the text of the
    [hint-description] element when there is one. *)
Record HintItem := mkHint {
  hintObj : list StringRange;
  hintType : JsString;
  hintDescription : JsString
}.

(** [$hint.find(".hint-obj").text()]; the spans hold plain text. *)
Definition hintText (h : HintItem) : string :=
  String.concat EmptyString (map text (hintObj h)).

(** The object [getHints] returns; its [match] property is always [null]. *)
Record HintResponse := mkResponse {
  hints : list HintItem;
  selectInitial : bool;
  handleWideResults : bool
}.

(** The argument of [insertHint]: a string, or the jQuery object of a hint
    ([completion.jquery] is truthy). *)
Inductive Completion :=
| CString (s : string)
| CJQuery (h : HintItem).

(** The hint provider object: [this.editor] and [this.ctxInfo]. *)
Record Provider := mkProvider {
  editor : option Editor;
  ctxInfo : option ContextInfo
}.

(** A call either returns or stops on a [TypeError] (a property read on
    [undefined] or [null]). *)
Inductive Outcome (A : Type) :=
| Ok (a : A)
| TypeError.
Arguments Ok {A} a.
Arguments TypeError {A}.

(** [stringMatcherOptions]. *)
Record MatcherOptions := mkOptions { preferPrefixMatches : bool }.
Definition stringMatcherOptions : MatcherOptions := mkOptions true.

(** List of parent keys for which no key hints will be provided. *)
Definition parentKeyBlacklist : list string :=
  [ "language.fileExtensions"; "language.fileNames"; "path" ].

(** [$.map(array, f)]: the results that are neither [undefined] nor
    [null], in order. *)
Fixpoint jq_map {A B} (f : A -> option B) (l : list A) : list B :=
  match l with
  | [] => []
  | x :: l' =>
      match f x with
      | Some y => y :: jq_map f l'
      | None => jq_map f l'
      end
  end.

(** The content [formatHints] gives the [hint-obj] element of a hint: one
    span for each of the [stringRanges] ("highlight the matched portion of
    each hint"), else the text [token.value] if there is one. *)
Definition hintSpans (t : SearchResult) : list StringRange :=
  match stringRanges t with
  | Some rs => rs
  | None =>
      match value t with
      | Some v => [mkRange v false]
      | None => []
      end
  end.

(** The two properties [getHints] reads off the object a key maps to. *)
Record KeyInfo := mkKeyInfo { ktype : JsString; kdescription : JsString }.

(** A [Language] object; [getHints] reads [type] and [description] off it
    when the keys are the languages. *)
Record Language := mkLanguage {
  lang_type : JsString;
  lang_description : JsString
}.

Record Theme := mkTheme { name : string }.

(* ================================================================= *)
(** ** The module's functions *)

(** [_isPrefDocument]: the file name matches [^\.?brackets\.json$]. *)
Definition _isPrefDocument (fileName : string) : bool :=
  ((fileName =? "brackets.json") || (fileName =? ".brackets.json"))%string.

(** [_isPrefHintsEnabled]: the two preferences are read with
    [PreferencesManager.get]; [None] is any value other than a boolean. *)
Definition _isPrefHintsEnabled (isPrefDocument : bool)
           (showCodeHints prefHints : option bool) : bool :=
  isPrefDocument
  && negb (match showCodeHints with Some false => true | _ => false end)
  && negb (match prefHints with Some false => true | _ => false end).

Section Engine.

(** *** Collaborators *)

(** [JSONUtils.getContextInfo(editor, pos, requireParent, requireNextToken)];
    [None] is [null]. *)
Variable getContextInfo : Editor -> Pos -> bool -> bool -> option ContextInfo.
(** [JSONUtils.stripQuotes]. *)
Variable stripQuotes : string -> string.
(** [JSONUtils.regexAllowedChars.test]. *)
Variable regexAllowedChars : string -> bool.
(** [StringMatch.stringMatch(str, query, options)]; [None] is no match. *)
Variable stringMatch :
  HintValue -> string -> MatcherOptions -> option SearchResult.
(** [StringMatch.basicMatchSort], which sorts the array it is given. *)
Variable basicMatchSort : list SearchResult -> list SearchResult.
(** [CodeInspection.getProviderIDsForLanguage]. *)
Variable getProviderIDsForLanguage : string -> list string.
(** [ThemeManager.getAllThemes()]. *)
Variable getAllThemes : list Theme.

(** *** Module variables read on the request path *)

Variable languages : JsObject Language.
Variable data : JsObject Preference.
Variable isPrefHintsEnabled : bool.

(** *** formatHints *)

Definition formatHints (hints : list SearchResult) (query : string)
  : list HintItem :=
  let hasMetadata :=
    existsb (fun t => truthy (match_type t) || truthy (match_description t))
            hints in
  map (fun t =>
         mkHint
           (hintSpans t)
           (if hasMetadata then match_type t else None)
           (if hasMetadata && truthy (match_description t)
            then match_description t else None))
      (basicMatchSort hints).

(** *** hasHints *)

Definition hasHints (this : Provider) (ed : Editor) : bool * Provider :=
  if isPrefHintsEnabled
     && (getModeForSelection ed =? "application/json")%string
  then
    let ctx := getContextInfo ed (getCursorPos ed) true false in
    let this' := mkProvider (Some ed) ctx in
    match ctx with
    | Some c =>
        match tokenType c with
        | Some kind =>
            (* Disallow hints for blacklisted keys. *)
            if TokenKind_eqb kind TOKEN_KEY
               && includes parentKeyBlacklist (parentKeyName c)
            then (false, this')
            else (true, this')
        | None => (false, this')
        end
    | None => (false, this')
    end
  else (false, this).

(** *** getHints *)

(** The local [query]. *)
Definition getHints_query (c : ContextInfo) : string :=
  let query := trim (stripQuotes (substr0 (tstring (token c)) (offset c))) in
  if regexAllowedChars query then EmptyString else query.

Definition keysOfOptions (ks : JsObject PrefOption) : JsObject KeyInfo :=
  map (fun kv => (fst kv, mkKeyInfo (type (snd kv)) (description (snd kv)))) ks.

Definition keysOfLanguages (ls : JsObject Language) : JsObject KeyInfo :=
  map (fun kv =>
         (fst kv, mkKeyInfo (lang_type (snd kv)) (lang_description (snd kv))))
      ls.

Definition keysOfData (d : JsObject Preference) : JsObject KeyInfo :=
  map (fun kv =>
         (fst kv, mkKeyInfo (type (opt (snd kv))) (description (opt (snd kv)))))
      d.

(** Key branch: the local [keys] and the [type] of the local [option]
    ("Get options for parent key else use general options"). *)
Definition getHints_keys (c : ContextInfo) : JsObject KeyInfo * JsString :=
  match match get data (parentKeyName c) with
        | Some p => keys p
        | None => None
        end with
  | Some ks => (keysOfOptions ks, None)
  | None =>
      if (parentKeyName c =? "language")%string
      then (keysOfLanguages languages, Some "object")
      else (keysOfData data, None)
  end.

(** Key branch: the local [hints] before [formatHints]. *)
Definition getHints_keyHints (c : ContextInfo) (query : string)
  : list SearchResult :=
  let '(ks, optionType) := getHints_keys c in
  jq_map (fun key =>
            if negb (includes (exclusionList c) key) then
              match stringMatch (VStr key) query stringMatcherOptions,
                    get ks key with
              | Some m, Some info =>
                  Some (withMeta m (js_or (ktype info) optionType)
                                   (js_or (kdescription info) None))
              | _, _ => None
              end
            else None)
         (Object_keys ks).

(** Value branch: the local [option] ("Get the key from data"). *)
Definition getHints_option (c : ContextInfo) : PrefOption :=
  match match get data (parentKeyName c) with
        | Some p =>
            match keys p with
            | Some ks => get ks (keyName c)
            | None => None
            end
        | None => None
        end with
  | Some o => o
  | None =>
      match get data (keyName c) with
      | Some p => opt p
      | None => noOption
      end
  end.

(** [option.values && (["number", "string"].indexOf(option.type) !== -1 ||
    (option.type === "array" && ctxInfo.isArray))]. *)
Definition allowedValuesApply (o : PrefOption) (c : ContextInfo) : bool :=
  match values o with
  | Some _ =>
      includes_js ["number"; "string"] (type o)
      || (is_str (type o) "array" && isArray c)
  | None => false
  end.

(** Value branch: the local [values] ("Get the values depending on the
    selected key"); [None] is the branch that returns [null]. *)
Definition getHints_rawValues (c : ContextInfo) (o : PrefOption)
  : option (list HintValue) :=
  if is_str (type o) "boolean" then Some [VStr "false"; VStr "true"]
  else if allowedValuesApply o c then values o
  else if isArray c && (keyName c =? "linting.prefer")%string
          && (match get languages (parentKeyName c) with
              | Some _ => true
              | None => false
              end)
  then Some (map VStr (getProviderIDsForLanguage (parentKeyName c)))
  else if (keyName c =? "themes.theme")%string
  then Some (map (fun theme => VStr (name theme)) getAllThemes)
  else if ((parentKeyName c =? "language.fileExtensions")
           || (parentKeyName c =? "language.fileNames"))%string
  then Some (map VStr (Object_keys languages))
  else None.

(** "Convert integers to strings, so StringMatch.stringMatch can match
    it." *)
Definition getHints_stringify (o : PrefOption) (vs : list HintValue)
  : list HintValue :=
  if is_str (type o) "number" || is_str (valueType o) "number"
  then map (fun val => VStr (toString val)) vs
  else vs.

(** Value branch: the local [values] handed to the matcher. *)
Definition getHints_values (c : ContextInfo) : option (list HintValue) :=
  let o := getHints_option c in
  option_map (getHints_stringify o) (getHints_rawValues c o).

(** Value branch: the local [hints] before [formatHints]. *)
Definition getHints_valueHints (o : PrefOption) (vs : list HintValue)
           (query : string) : list SearchResult :=
  jq_map (fun value =>
            match stringMatch value query stringMatcherOptions with
            | Some m =>
                Some (withMeta m (js_or (valueType o) (type o))
                                 (js_or (description o) None))
            | None => None
            end)
         vs.

(** [getHints]: the returned value ([None] is [null]) and the provider
    with [this.ctxInfo] updated. The truthiness test on [ctxInfo.token]
    always succeeds, a context carrying its token. *)
Definition getHints (this : Provider)
  : Outcome (option HintResponse * Provider) :=
  match editor this with
  | None => TypeError
  | Some ed =>
      let ctx := getContextInfo ed (getCursorPos ed) true false in
      let this' := mkProvider (Some ed) ctx in
      match ctx with
      | None => Ok (None, this')
      | Some c =>
          let query := getHints_query c in
          let respond hs :=
            Ok (Some (mkResponse (formatHints hs query) true false), this') in
          match tokenType c with
          | Some TOKEN_KEY => respond (getHints_keyHints c query)
          | Some TOKEN_VALUE =>
              match getHints_values c with
              | Some vs =>
                  respond (getHints_valueHints (getHints_option c) vs query)
              | None => Ok (None, this')
              end
          | None => respond []
          end
      end
  end.

(** *** insertHint *)

(** [type] and [completion] after the test on [completion.jquery]. *)
Definition completionType (completion : Completion) : JsString :=
  match completion with
  | CJQuery h => hintType h
  | CString _ => None
  end.

Definition completionText (completion : Completion) : string :=
  match completion with
  | CJQuery h => hintText h
  | CString s => s
  end.

(** The [switch (type)] of the key branch: what is appended after the
    colon. There is no [default] case. *)
Definition emptyBody (ty : JsString) : string :=
  if is_str ty "object" then "{}"
  else if is_str ty "array" then "[]"
  else if is_str ty "string" then dquote ++ dquote
  else EmptyString.

(** Key branch: the local [quoteChar], left undefined when the token does
    not start with a quote. *)
Definition keyQuoteChar (c : ContextInfo) : JsString :=
  let startChar := charAt0 (tstring (token c)) in
  if isQuoteChar startChar then Some startChar else None.

(** Key branch: the text handed to [replaceRange]. *)
Definition keyCompletion (c : ContextInfo) (ty : JsString)
           (completion : string) : string :=
  let quoteChar := keyQuoteChar c in
  (* Put quotes around completion. *)
  let completion :=
    js_concat_operand quoteChar ++ completion ++ js_concat_operand quoteChar in
  (* Append colon and braces, brackets and quotes. *)
  if negb (shouldReplace c)
  then (completion ++ ": ") ++ emptyBody ty
  else completion.

(** Value branch: the local [quoteChar]. *)
Definition valueQuoteChar (c : ContextInfo) : string :=
  let startChar := charAt0 (tstring (token c)) in
  if isQuoteChar startChar then startChar else dquote.

(** Value branch: the text handed to [replaceRange]. *)
Definition valueCompletion (c : ContextInfo) (ty : JsString)
           (completion : string) : string :=
  if negb (truthy ty) || is_str ty "string"
  then valueQuoteChar c ++ completion ++ valueQuoteChar c
  else completion.

(** Value branch: [start.ch] and [end.ch]. *)
Definition valueSpan (c : ContextInfo) (pos : Pos) : Z * Z :=
  if regexAllowedChars (tstring (token c)) then (ch pos, ch pos)
  else if shouldReplace c then (tstart (token c), tend (token c))
  else (ch pos - offset c, tend (token c)).

(** [insertHint]: the returned value ([None] is [undefined]) and the calls
    made on the editor, in order. *)
Definition insertHint (this : Provider) (completion : Completion)
  : Outcome (option bool * list EditorOp) :=
  match editor this with
  | None => TypeError
  | Some ed =>
      let pos := getCursorPos ed in
      let ty := completionType completion in
      let completion := completionText completion in
      match getContextInfo ed pos false true with
      | None => TypeError
      | Some c =>
          match tokenType c with
          | Some TOKEN_KEY =>
              let completion := keyCompletion c ty completion in
              let start := mkPos (line pos) (ch pos - offset c) in
              let end_ := mkPos (line pos) (tend (token c)) in
              let replace := ReplaceRange completion start end_ in
              (* Place cursor inside the braces, brackets or quotes. *)
              if includes_js ["object"; "array"; "string"] ty then
                let cursor :=
                  SetCursorPos (line start)
                               (ch start
                                + Z.of_nat (String.length completion) - 1) in
                (* Start a new session in case it is an array or string. *)
                if negb (is_str ty "object") && negb (shouldReplace c)
                then Ok (Some true, [replace; cursor])
                else Ok (Some false, [replace; cursor])
              else Ok (Some true, [replace])
          | Some TOKEN_VALUE =>
              let '(startCh, endCh) := valueSpan c pos in
              let completion := valueCompletion c ty completion in
              Ok (Some false,
                  [ReplaceRange completion (mkPos (line pos) startCh)
                                (mkPos (line pos) endCh)])
          | None => Ok (None, [])
          end
      end
  end.

End Engine.

(* ================================================================= *)
(** ** The text buffer *)

(** Modelled from the spec: the text-buffer service is not part of the
    module; the spec names its calls [replaceRange(newText, startPos,
    endPos)] and [setCursor(pos)]. A position is clipped to the line it
    names and the two ends of a range are put in order, as the editor
    component does. *)
Definition clipCh (s : string) (c : Z) : nat :=
  Z.to_nat (Z.max 0 (Z.min c (Z.of_nat (String.length s)))).

(** Modelled from the spec: [replaceRange] inside one line. *)
Definition replaceInLine (s newText : string) (from to : Z) : string :=
  let a := clipCh s from in
  let b := clipCh s to in
  let lo := Nat.min a b in
  let hi := Nat.max a b in
  String.substring 0 lo s ++ newText
  ++ String.substring hi (String.length s - hi) s.

Fixpoint updateLine (ls : list string) (n : nat) (f : string -> string)
  : list string :=
  match ls, n with
  | [], _ => []
  | l :: ls', O => f l :: ls'
  | l :: ls', S n' => l :: updateLine ls' n' f
  end.

(** Modelled from the spec: the effect of one call on the editor. A range
    is always inside one line here, [insertHint] giving both ends the line
    of the cursor. *)
Definition applyOp (ed : Editor) (op : EditorOp) : Editor :=
  match op with
  | ReplaceRange newText from to =>
      if (line from =? line to) && (0 <=? line from) then
        mkEditor (updateLine (lines ed) (Z.to_nat (line from))
                             (fun s =>
                                replaceInLine s newText (ch from) (ch to)))
                 (getCursorPos ed) (getModeForSelection ed)
      else ed
  | SetCursorPos l c =>
      mkEditor (lines ed) (mkPos l c) (getModeForSelection ed)
  end.

Definition applyOps (ed : Editor) (ops : list EditorOp) : Editor :=
  fold_left applyOp ops ed.

(* ================================================================= *)
(** ** Vocabulary of the statements *)

(** The entry [data[pref]] holds once the callback has run for a
    preference that is not excluded. *)
Definition mergedEntry (target : option Preference) (preference : Preference)
  : Preference :=
  let merged := extend target preference in
  match keys preference with
  | Some ks => mkPreference (opt merged) (Some ks) (excludeFromHints merged)
  | None => merged
  end.

(** What [data[k]] is after the constructor has run on [preferences] from
    the registry [d0]. *)
Definition registered (preferences d0 : JsObject Preference) (k : string)
  : option Preference :=
  match get preferences k with
  | Some p =>
      if isTrue (excludeFromHints p) then get d0 k
      else Some (mergedEntry (get d0 k) p)
  | None => get d0 k
  end.

(** Every entry is still the initial one or already the final one. *)
Definition settling (preferences d0 d : JsObject Preference) : Prop :=
  forall k, get d k = get d0 k \/ get d k = registered preferences d0 k.

(** The spans of a match spell the candidate that was matched: "the
    matched portion of each hint" is a portion of that hint. *)
Definition MatcherSpells
           (stringMatch :
              HintValue -> string -> MatcherOptions -> option SearchResult)
  : Prop :=
  forall v query options m,
    stringMatch v query options = Some m ->
    String.concat EmptyString (map text (hintSpans m)) = toString v.

(** Sorting rearranges the hints and does nothing else. *)
Definition SortPermutes
           (basicMatchSort : list SearchResult -> list SearchResult) : Prop :=
  forall l, Permutation (basicMatchSort l) l.

(* ================================================================= *)
(** ** Concrete collaborators and inputs *)

(** A preference set that defines [language] with a description of its
    own, and an excluded preference. *)
Definition samplePreferences : JsObject Preference :=
  [ ("language",
     mkPreference (mkOption None (Some "Per-language settings") None None)
                  None None);
    ("debug.hidden",
     mkPreference (mkOption (Some "boolean") None None None)
                  None (Some true)) ].

(** A context service that answers with the same context everywhere. *)
Definition contextAlways (c : ContextInfo)
  : Editor -> Pos -> bool -> bool -> option ContextInfo :=
  fun _ _ _ _ => Some c.

(** A classifier that accepts the tokens made of white space only. *)
Definition blankToken (s : string) : bool :=
  (trim s =? EmptyString)%string.

Definition jsonMode : string := "application/json".

(** The hint [foo] of the given type, as [formatHints] builds it. *)
Definition fooHint (ty : JsString) : Completion :=
  CJQuery (mkHint [mkRange "foo" false] ty None).

(** A key context on an empty line. *)
Definition emptyLineEditor : Editor :=
  mkEditor [EmptyString] (mkPos 0 0) jsonMode.

Definition emptyKeyContext : ContextInfo :=
  mkContext (mkToken EmptyString 0 0) (Some TOKEN_KEY) 0
            EmptyString EmptyString false [] false.

(** A key being typed without its opening quote: the token [fo], the
    cursor after it. *)
Definition bareKeyEditor : Editor :=
  mkEditor ["fo"] (mkPos 0 2) jsonMode.

Definition bareKeyContext : ContextInfo :=
  mkContext (mkToken "fo" 0 2) (Some TOKEN_KEY) 2
            "fo" EmptyString false [] false.

(** A key context in a document that holds an opening quote. *)
Definition quotedKeyEditor : Editor :=
  mkEditor [dquote] (mkPos 0 1) jsonMode.

Definition quotedKeyContext (replace : bool) : ContextInfo :=
  mkContext (mkToken dquote 0 1) (Some TOKEN_KEY) 1
            EmptyString EmptyString false [] replace.

(** The token ['b'] in a value position, to be replaced as a whole. *)
Definition quotedValueEditor : Editor :=
  mkEditor ["'b'"] (mkPos 0 2) jsonMode.

Definition quotedValueContext : ContextInfo :=
  mkContext (mkToken "'b'" 0 3) (Some TOKEN_VALUE) 2
            "key" EmptyString false [] true.

(** The hints of an answer of [getHints], none when there is no answer. *)
Definition hints_of (r : Outcome (option HintResponse * Provider))
  : list HintItem :=
  match r with
  | Ok (Some resp, _) => hints resp
  | _ => []
  end.

(** A matcher that accepts the candidates the query is a prefix of, and
    reports the candidate as one unmatched span. *)
Definition prefixMatch (v : HintValue) (query : string)
           (options : MatcherOptions) : option SearchResult :=
  if String.prefix query (toString v)
  then Some (mkResult v (Some [mkRange (toString v) false]) None 0 None None)
  else None.

(** A sort that leaves the order as it is. *)
Definition keepOrder (l : list SearchResult) : list SearchResult := l.

(** A [stripQuotes] that removes the quote a string starts with. *)
Definition stripLeadingQuote (s : string) : string :=
  match s with
  | EmptyString => EmptyString
  | String q s' => if isQuoteChar (String q EmptyString) then s' else s
  end.

Definition twoProviders (languageId : string) : list string :=
  if (languageId =? "javascript")%string then ["ESLint"; "JSHint"] else [].

Definition noThemes : list Theme := [].

Definition oneLanguage : JsObject Language :=
  [ ("javascript", mkLanguage None None) ].

(** A registry with a boolean preference, a preference with children and
    the linting preference, first without and then with a list of
    values. *)
Definition sampleData : JsObject Preference :=
  [ ("closeBrackets",
     mkPreference (mkOption (Some "boolean") (Some "Close brackets")
                            (Some [VStr "yes"; VStr "no"]) None)
                  None None);
    ("closeTags",
     mkPreference (mkOption (Some "object") (Some "Close tags") None None)
                  (Some [ ("whenOpening",
                           mkOption (Some "boolean") None None None);
                          ("whenClosing",
                           mkOption (Some "boolean") None None None) ])
                  None);
    ("linting.prefer",
     mkPreference (mkOption (Some "array") (Some "Preferred linters")
                            None None)
                  None None) ].

Definition sampleDataWithValues : JsObject Preference :=
  [ ("linting.prefer",
     mkPreference (mkOption (Some "array") (Some "Preferred linters")
                            (Some [VStr "none"]) None)
                  None None) ].

(** A value context for [key] under [parent], on an empty token. *)
Definition valueContext (parent key : string) (inArray : bool)
           (excluded : list string) : ContextInfo :=
  mkContext (mkToken EmptyString 0 0) (Some TOKEN_VALUE) 0
            key parent inArray excluded false.

(** A key context under [parent], on a token that holds the opening quote
    only. *)
Definition keyContext (parent : string) (excluded : list string)
  : ContextInfo :=
  mkContext (mkToken dquote 0 1) (Some TOKEN_KEY) 1
            EmptyString parent false excluded false.

(* ================================================================= *)
(** ** The module's flags and their listeners *)

(** The module variables [isPrefDocument], [isPrefHintsEnabled] and
    [languages]. *)
Record ModuleState := mkModule {
  isPrefDocument : bool;
  isPrefHintsEnabled : bool;
  languages : JsObject Language
}.

(** What [PreferencesManager.get] answers for [showCodeHints] and
    [codehint.PrefHints] when a listener runs. *)
Record PrefStore := mkStore {
  showCodeHints : option bool;
  prefHints : option bool
}.

(** The notifications the module listens to: a change of one of the two
    preferences, [activeEditorChange] with the name of the file of the new
    editor ([None] when there is no editor), and [languageAdded] with what
    [LanguageManager.getLanguages()] answers then. *)
Inductive ModuleEvent :=
| ShowCodeHintsChange
| PrefHintsChange
| ActiveEditorChange (fileName : option string)
| LanguageAdded (all : JsObject Language).

(** The state when the module is loaded. *)
Definition initialModule (all : JsObject Language) : ModuleState :=
  mkModule false false all.

(** The listener of an event, run while the preferences are [store]. *)
Definition handleEvent (st : ModuleState) (ev : ModuleEvent * PrefStore)
  : ModuleState :=
  let store := snd ev in
  match fst ev with
  | ShowCodeHintsChange | PrefHintsChange =>
      mkModule (isPrefDocument st)
               (_isPrefHintsEnabled (isPrefDocument st)
                                    (showCodeHints store) (prefHints store))
               (languages st)
  | ActiveEditorChange editor =>
      let isDoc := match editor with
                   | Some fileName => _isPrefDocument fileName
                   | None => isPrefDocument st
                   end in
      mkModule isDoc
               (_isPrefHintsEnabled isDoc
                                    (showCodeHints store) (prefHints store))
               (languages st)
  | LanguageAdded all =>
      mkModule (isPrefDocument st) (isPrefHintsEnabled st) all
  end.

Definition handleEvents (st : ModuleState)
           (evs : list (ModuleEvent * PrefStore)) : ModuleState :=
  fold_left handleEvent evs st.

(* ================================================================= *)
(** ** The gutters of the inline editors *)

(** [_syncGutterWidths]: each editor of [allHostedEditors] (the inline
    editors, then the host) is given by the width read off its line number
    gutter once its [min-width] is cleared, in whole pixels; [None] is the
    answer of [width()] when the gutter has no such element. The result
    lists the [min-width] each gutter is left with, the empty string being
    the cleared one. *)
Definition widerOf (maxWidth : Z) (curWidth : option Z) : Z :=
  match curWidth with
  | Some w => if maxWidth <? w then w else maxWidth
  | None => maxWidth
  end.

Definition _syncGutterWidths (inlineEditors : list (option Z))
           (hostEditor : option Z) : list string :=
  let allHostedEditors := (inlineEditors ++ [hostEditor])%list in
  let maxWidth := fold_left widerOf allHostedEditors 0 in
  if (List.length allHostedEditors =? 1)%nat
  then [EmptyString]
  else map (fun _ => toString (VNum maxWidth) ++ "px") allHostedEditors.

(* ================================================================= *)
(** ** More vocabulary of the statements *)

(** The preference called [pref] is one the constructor merges. *)
Definition registrable (preferences : JsObject Preference) (pref : string)
  : bool :=
  match get preferences pref with
  | Some p => negb (isTrue (excludeFromHints p))
  | None => false
  end.

(** The matcher accepts every candidate for the query. *)
Definition MatcherAccepts
           (stringMatch :
              HintValue -> string -> MatcherOptions -> option SearchResult)
           (query : string) : Prop :=
  forall v, stringMatch v query stringMatcherOptions <> None.

(** The calls of a run that stay on the line [l]. *)
Definition onLine (l : Z) (op : EditorOp) : Prop :=
  match op with
  | ReplaceRange _ from to => line from = l /\ line to = l
  | SetCursorPos l' _ => l' = l
  end.

(** Some events, with the preferences they were handled under. *)
Definition sampleEvents : list (ModuleEvent * PrefStore) :=
  [ (ActiveEditorChange (Some "brackets.json"), mkStore None (Some true));
    (LanguageAdded [("json", mkLanguage None None)], mkStore None None);
    (ActiveEditorChange None, mkStore (Some true) None) ].

(** A matcher that accepts everything. *)
Definition anyMatch (v : HintValue) (query : string)
           (options : MatcherOptions) : option SearchResult :=
  Some (mkResult v (Some [mkRange (toString v) false]) None 0 None None).

(** A registry with numeric and string values. *)
Definition sampleDataValues : JsObject Preference :=
  [ ("tabSize",
     mkPreference (mkOption (Some "number") None
                            (Some [VNum 2; VNum 4; VNum 8]) None)
                  None None);
    ("lineEndings",
     mkPreference (mkOption (Some "string") None
                            (Some [VStr "LF"; VStr "CRLF"]) None)
                  None None);
    ("hidden.folders",
     mkPreference (mkOption (Some "array") None
                            (Some [VStr "node_modules"]) None)
                  None None) ].

Definition twoThemes : list Theme :=
  [ mkTheme "light-theme"; mkTheme "dark-theme" ].

(** A context service that never finds a context. *)
Definition contextNever
  : Editor -> Pos -> bool -> bool -> option ContextInfo :=
  fun _ _ _ _ => None.

(** A value position that holds one space, the cursor after it. *)
Definition blankValueEditor : Editor :=
  mkEditor [" "] (mkPos 0 1) jsonMode.

Definition blankValueContext : ContextInfo :=
  mkContext (mkToken " " 0 1) (Some TOKEN_VALUE) 1
            "closeBrackets" EmptyString false [] true.

(** Two matches without a type or a description. *)
Definition plainMatches : list SearchResult :=
  [ mkResult (VStr "a") (Some [mkRange "a" false]) None 0 None None;
    mkResult (VStr "b") (Some [mkRange "b" false]) None 0 None None ].

(** The parts of a key context, for a token that starts a key. *)
Definition quotedToken (q rest : string) (replace : bool) : ContextInfo :=
  mkContext (mkToken (q ++ rest) 0 (Z.of_nat (String.length (q ++ rest))))
            (Some TOKEN_KEY) (Z.of_nat (String.length (q ++ rest)))
            rest EmptyString false [] replace.

(* ================================================================= *)
(** ** The constructor on preferences whose fields may hold null *)

(** A property that is undefined, holds [null], or holds a value.
    [$.extend] tells the first from the other two. *)
Inductive JsField (A : Type) :=
| Undefined
| Null
| Value (a : A).
Arguments Undefined {A}.
Arguments Null {A}.
Arguments Value {A} a.

(** A preference, and an entry of [data], with the three states of each
    field. *)
Record RawPreference := mkRaw {
  raw_type : JsField string;
  raw_description : JsField string;
  raw_values : JsField (list HintValue);
  raw_valueType : JsField string;
  raw_keys : JsField (JsObject PrefOption);
  raw_excludeFromHints : JsField bool
}.

(** Truthiness of a field that holds an object when it holds a value. *)
Definition holdsObject {A} (f : JsField A) : bool :=
  match f with
  | Value _ => true
  | _ => false
  end.

(** Truthiness of a field that holds a boolean when it holds a value. *)
Definition holdsTrue (f : JsField bool) : bool :=
  match f with
  | Value true => true
  | _ => false
  end.

(** [$.extend] on one field: [copy !== undefined] is copied, [null]
    included. *)
Definition extendRawField {A} (target src : JsField A) : JsField A :=
  match src with
  | Undefined => target
  | _ => src
  end.

(** [$.extend(target, preference)]; an undefined target is replaced by a
    fresh empty object. *)
Definition extendRaw (target : option RawPreference)
           (preference : RawPreference) : RawPreference :=
  let t := match target with
           | Some t => t
           | None => mkRaw Undefined Undefined Undefined Undefined
                           Undefined Undefined
           end in
  mkRaw (extendRawField (raw_type t) (raw_type preference))
        (extendRawField (raw_description t) (raw_description preference))
        (extendRawField (raw_values t) (raw_values preference))
        (extendRawField (raw_valueType t) (raw_valueType preference))
        (extendRawField (raw_keys t) (raw_keys preference))
        (extendRawField (raw_excludeFromHints t)
                        (raw_excludeFromHints preference)).

(** The built-in entry with description [D]. *)
Definition builtinRaw (D : string) : RawPreference :=
  mkRaw (Value "object") (Value D) Undefined Undefined Undefined Undefined.

(** The initial value of [data]. *)
Definition data0Raw (DESCRIPTION_LANGUAGE DESCRIPTION_PATH : string)
  : JsObject RawPreference :=
  [ ("language", builtinRaw DESCRIPTION_LANGUAGE);
    ("path", builtinRaw DESCRIPTION_PATH) ].

(** What [data[pref]] holds once the callback has run for a preference
    that is not excluded: the merge, with the clone of the child keys if
    there are any. *)
Definition mergedRaw (target : option RawPreference)
           (preference : RawPreference) : RawPreference :=
  let merged := extendRaw target preference in
  if holdsObject (raw_keys preference)
  then mkRaw (raw_type merged) (raw_description merged) (raw_values merged)
             (raw_valueType merged) (raw_keys preference)
             (raw_excludeFromHints merged)
  else merged.

(** The body of the [forEach] callback of the constructor. *)
Definition addPreferenceRaw (preferences : JsObject RawPreference)
           (data : JsObject RawPreference) (pref : string)
  : JsObject RawPreference :=
  match get preferences pref with
  | None => data
  | Some preference =>
      if holdsTrue (raw_excludeFromHints preference) then data
      else
        let merged := extendRaw (get data pref) preference in
        let data1 := set data pref merged in
        (* If child keys found, add them. *)
        if holdsObject (raw_keys preference)
        then set data1 pref
                 (mkRaw (raw_type merged) (raw_description merged)
                        (raw_values merged) (raw_valueType merged)
                        (raw_keys preference) (raw_excludeFromHints merged))
        else data1
  end.

(** The constructor [PrefsCodeHints], as far as it changes [data]. *)
Definition PrefsCodeHints_raw (preferences : JsObject RawPreference)
           (data : JsObject RawPreference) : JsObject RawPreference :=
  fold_left (addPreferenceRaw preferences) (Object_keys preferences) data.

(** What [data[k]] is after the constructor has run on [preferences] from
    the registry [d0]. *)
Definition registeredRaw (preferences d0 : JsObject RawPreference)
           (k : string) : option RawPreference :=
  match get preferences k with
  | Some p =>
      if holdsTrue (raw_excludeFromHints p) then get d0 k
      else Some (mergedRaw (get d0 k) p)
  | None => get d0 k
  end.

(** Every entry is still the initial one or already the final one. *)
Definition settlingRaw (preferences d0 d : JsObject RawPreference) : Prop :=
  forall k, get d k = get d0 k \/ get d k = registeredRaw preferences d0 k.

(** The field of a built-in entry after the constructor: the field of the
    preference of that name when it defines it, [null] included, and the
    built-in value when it leaves it undefined. *)
Definition amendedField {A} (builtin : JsField A) (field : JsField A)
  : JsField A :=
  match field with
  | Undefined => builtin
  | Null => Null
  | Value a => Value a
  end.

(** The state of the built-in entry named [k], of fixed description [D],
    in the registry [d] built from [preferences]. *)
Definition builtinAmendedRaw (preferences d : JsObject RawPreference)
           (k D : string) : Prop :=
  exists e,
    get d k = Some e /\
    match get preferences k with
    | Some p =>
        if holdsTrue (raw_excludeFromHints p) then e = builtinRaw D
        else
          raw_type e = amendedField (Value "object") (raw_type p)
          /\ raw_description e = amendedField (Value D) (raw_description p)
          /\ raw_values e = raw_values p
          /\ raw_valueType e = raw_valueType p
          /\ raw_keys e = raw_keys p
          /\ raw_excludeFromHints e = raw_excludeFromHints p
    | None => e = builtinRaw D
    end.

(** A preference set that defines [language] with a description of its
    own, one that sets the description of [path] to [null], and an
    excluded preference. *)
Definition sampleRaw : JsObject RawPreference :=
  [ ("language",
     mkRaw Undefined (Value "Per-language settings") Undefined Undefined
           Undefined Undefined);
    ("path",
     mkRaw Undefined Null Undefined Undefined Undefined Undefined);
    ("debug.hidden",
     mkRaw (Value "boolean") Undefined Undefined Undefined Undefined
           (Value true)) ].

(** What a truthiness test or a comparison with a string sees of a field:
    [null] and undefined alike. *)
Definition viewField {A} (f : JsField A) : option A :=
  match f with
  | Value a => Some a
  | _ => None
  end.

(** A preference as [getHints] reads it. *)
Definition viewPreference (p : RawPreference) : Preference :=
  mkPreference
    (mkOption (viewField (raw_type p)) (viewField (raw_description p))
              (viewField (raw_values p)) (viewField (raw_valueType p)))
    (viewField (raw_keys p))
    (viewField (raw_excludeFromHints p)).

Definition viewRegistry (o : JsObject RawPreference) : JsObject Preference :=
  map (fun kv => (fst kv, viewPreference (snd kv))) o.

Definition notNull {A} (f : JsField A) : Prop := f <> Null.

(** No field of the preference holds [null]. *)
Definition nullFree (p : RawPreference) : Prop :=
  notNull (raw_type p) /\ notNull (raw_description p)
  /\ notNull (raw_values p) /\ notNull (raw_valueType p)
  /\ notNull (raw_keys p) /\ notNull (raw_excludeFromHints p).

(* ================================================================= *)
(** ** Names and numbers the statements keep apart *)

(** The names every plain object inherits from [Object.prototype]. *)
Definition objectPrototypeNames : list string :=
  [ "constructor"; "hasOwnProperty"; "isPrototypeOf";
    "propertyIsEnumerable"; "toLocaleString"; "toString"; "valueOf";
    "__proto__"; "__defineGetter__"; "__defineSetter__";
    "__lookupGetter__"; "__lookupSetter__" ].

(** The key and the parent key of a context are own names, so that
    [data[...]], [keys[...]] and [languages[...]] are what [get] finds. *)
Definition ownNames (c : ContextInfo) : Prop :=
  ~ In (parentKeyName c) objectPrototypeNames
  /\ ~ In (keyName c) objectPrototypeNames.

Definition isDigit (a : ascii) : bool :=
  let n := nat_of_ascii a in (48 <=? n)%nat && (n <=? 57)%nat.

Fixpoint allDigits (s : string) : bool :=
  match s with
  | EmptyString => true
  | String a s' => isDigit a && allDigits s'
  end.

(** A name written with digits only; the array indices are among them. *)
Definition digitsOnly (s : string) : bool :=
  match s with
  | EmptyString => false
  | _ => allDigits s
  end.

(** A name that [Object.keys] lists in the order of insertion and that an
    assignment stores as an own property: not written with digits only,
    and none of the inherited names. *)
Definition ordinaryName (k : string) : Prop :=
  digitsOnly k = false /\ ~ In k objectPrototypeNames.

(** An integer [toString] writes as [Number.prototype.toString] does. *)
Definition safeInteger (v : HintValue) : Prop :=
  match v with
  | VStr _ => True
  | VNum n => Z.abs n <= 9007199254740991
  end.

(* ================================================================= *)
(** ** Properties of the registry *)

Section ObjectFacts.

Context {A : Type}.

Lemma get_set_same (o : JsObject A) (k : string) (v : A) :
  get (set o k v) k = Some v.
Proof.
  induction o as [|[k' v'] o IH]; simpl.
  - now rewrite String.eqb_refl.
  - destruct (String.eqb_spec k' k) as [->|Hne]; simpl.
    + now rewrite String.eqb_refl.
    + destruct (String.eqb_spec k' k); [contradiction | exact IH].
Qed.

Lemma get_set_other (o : JsObject A) (k k' : string) (v : A) :
  k <> k' -> get (set o k v) k' = get o k'.
Proof.
  intros Hne. induction o as [|[k0 v0] o IH]; simpl.
  - destruct (String.eqb_spec k k'); [contradiction | reflexivity].
  - destruct (String.eqb_spec k0 k) as [->|Hk]; simpl.
    + destruct (String.eqb_spec k k'); [contradiction | reflexivity].
    + destruct (String.eqb_spec k0 k'); [reflexivity | exact IH].
Qed.

Lemma get_None_not_key (o : JsObject A) (k : string) :
  get o k = None -> ~ In k (Object_keys o).
Proof.
  induction o as [|[k' v'] o IH]; simpl; intros Hget Hin; [exact Hin|].
  destruct (String.eqb_spec k' k) as [|Hne]; [discriminate|].
  destruct Hin as [Heq|Hin]; [now apply Hne | now apply IH].
Qed.

Lemma get_Some_key (o : JsObject A) (k : string) (v : A) :
  get o k = Some v -> In k (Object_keys o).
Proof.
  induction o as [|[k' v'] o IH]; simpl; [discriminate|].
  destruct (String.eqb_spec k' k); auto.
Qed.

End ObjectFacts.

Lemma extendField_idem {A} (t s : option A) :
  extendField (extendField t s) s = extendField t s.
Proof. now destruct s. Qed.

Lemma mergedEntry_idem (t : option Preference) (p : Preference) :
  mergedEntry (Some (mergedEntry t p)) p = mergedEntry t p.
Proof.
  unfold mergedEntry, extend.
  destruct p as [[pt pd pv pvt] pk pe]; simpl.
  destruct pk; simpl; now rewrite !extendField_idem.
Qed.

Lemma get_addPreference (preferences d : JsObject Preference)
      (pref k : string) :
  get (addPreference preferences d pref) k =
  if (pref =? k)%string then
    match get preferences pref with
    | Some p =>
        if isTrue (excludeFromHints p) then get d k
        else Some (mergedEntry (get d k) p)
    | None => get d k
    end
  else get d k.
Proof.
  unfold addPreference, mergedEntry.
  destruct (String.eqb_spec pref k) as [->|Hne].
  - destruct (get preferences k) as [p|]; [|reflexivity].
    destruct (isTrue (excludeFromHints p)); [reflexivity|].
    destruct (keys p); now rewrite get_set_same.
  - destruct (get preferences pref) as [p|]; [|reflexivity].
    destruct (isTrue (excludeFromHints p)); [reflexivity|].
    destruct (keys p); now rewrite ?get_set_other by assumption.
Qed.

Section RegistryFold.

Variables preferences d0 : JsObject Preference.

Lemma addPreference_settling d pref :
  settling preferences d0 d ->
  settling preferences d0 (addPreference preferences d pref).
Proof.
  intros Hd k. rewrite get_addPreference.
  destruct (String.eqb_spec pref k) as [->|]; [|apply Hd].
  pose proof (Hd k) as Hk. unfold registered in Hk |- *.
  destruct (get preferences k) as [p|]; [|exact Hk].
  destruct (isTrue (excludeFromHints p)); [exact Hk|].
  right. destruct Hk as [H|H]; rewrite H; [reflexivity|].
  now rewrite mergedEntry_idem.
Qed.

Lemma addPreference_done d pref :
  settling preferences d0 d ->
  get (addPreference preferences d pref) pref
  = registered preferences d0 pref.
Proof.
  intros Hd. rewrite get_addPreference, String.eqb_refl.
  pose proof (Hd pref) as Hk. unfold registered in Hk |- *.
  destruct (get preferences pref) as [p|].
  - destruct (isTrue (excludeFromHints p)).
    + now destruct Hk.
    + destruct Hk as [H|H]; rewrite H; [reflexivity|].
      now rewrite mergedEntry_idem.
  - now destruct Hk.
Qed.

Lemma addPreference_stable d pref k :
  get d k = registered preferences d0 k ->
  get (addPreference preferences d pref) k = registered preferences d0 k.
Proof.
  intros Hk. rewrite get_addPreference.
  destruct (String.eqb_spec pref k) as [->|]; [|exact Hk].
  rewrite Hk. unfold registered.
  destruct (get preferences k) as [p|]; [|reflexivity].
  destruct (isTrue (excludeFromHints p)); [reflexivity|].
  now rewrite mergedEntry_idem.
Qed.

Lemma fold_settling prefs d :
  settling preferences d0 d ->
  settling preferences d0 (fold_left (addPreference preferences) prefs d).
Proof.
  revert d. induction prefs as [|pref prefs IH]; simpl; intros d Hd; auto.
  apply IH. now apply addPreference_settling.
Qed.

Lemma fold_stable prefs d k :
  get d k = registered preferences d0 k ->
  get (fold_left (addPreference preferences) prefs d) k
  = registered preferences d0 k.
Proof.
  revert d. induction prefs as [|pref prefs IH]; simpl; intros d Hk; auto.
  apply IH. now apply addPreference_stable.
Qed.

Lemma fold_done prefs d k :
  settling preferences d0 d -> In k prefs ->
  get (fold_left (addPreference preferences) prefs d) k
  = registered preferences d0 k.
Proof.
  revert d. induction prefs as [|pref prefs IH]; simpl; intros d Hd Hin.
  - contradiction.
  - destruct Hin as [->|Hin].
    + apply fold_stable. now apply addPreference_done.
    + apply IH; [now apply addPreference_settling | exact Hin].
Qed.

(** The registry after the constructor, entry by entry. *)
Lemma get_PrefsCodeHints_data k :
  get (PrefsCodeHints_data preferences d0) k = registered preferences d0 k.
Proof.
  unfold PrefsCodeHints_data.
  destruct (get preferences k) as [p|] eqn:Hp.
  - apply fold_done; [intros k'; now left | now apply get_Some_key with p].
  - destruct (fold_settling (Object_keys preferences) d0
                            (fun k' => or_introl eq_refl) k) as [H|H];
      rewrite H; [|reflexivity].
    unfold registered. now rewrite Hp.
Qed.

End RegistryFold.

(* ================================================================= *)
(** ** Strings and the buffer *)

Lemma string_length_app (a b : string) :
  String.length (a ++ b) = (String.length a + String.length b)%nat.
Proof. induction a; simpl; congruence. Qed.

Lemma string_app_assoc (a b c : string) : (a ++ b) ++ c = a ++ b ++ c.
Proof. induction a; simpl; congruence. Qed.

Lemma substring_whole (s : string) :
  String.substring 0 (String.length s) s = s.
Proof. induction s; simpl; congruence. Qed.

Lemma substring_app_prefix (a b : string) :
  String.substring 0 (String.length a) (a ++ b) = a.
Proof.
  induction a; simpl; [now destruct b | congruence].
Qed.

Lemma substring_app_suffix (a b : string) :
  String.substring (String.length a) (String.length b) (a ++ b) = b.
Proof.
  induction a; simpl; [apply substring_whole | assumption].
Qed.

Lemma substring_app_suffix2 (a b c : string) :
  String.substring (String.length a + String.length b) (String.length c)
                   (a ++ b ++ c) = c.
Proof.
  induction a; simpl; [apply substring_app_suffix | assumption].
Qed.

(** Replacing the span of [mid] inside [pre ++ mid ++ post]. *)
Lemma replaceInLine_span (pre mid post newText : string) :
  replaceInLine (pre ++ mid ++ post) newText
                (Z.of_nat (String.length pre))
                (Z.of_nat (String.length pre) + Z.of_nat (String.length mid))
  = pre ++ newText ++ post.
Proof.
  unfold replaceInLine, clipCh.
  rewrite !string_length_app.
  replace (Z.to_nat (Z.max 0 (Z.min (Z.of_nat (String.length pre)) _)))
    with (String.length pre) by lia.
  replace (Z.to_nat (Z.max 0 (Z.min (Z.of_nat (String.length pre)
                                     + Z.of_nat (String.length mid)) _)))
    with (String.length pre + String.length mid)%nat by lia.
  rewrite Nat.min_l, Nat.max_r by lia.
  rewrite substring_app_prefix.
  replace (String.length pre + (String.length mid + String.length post)
           - (String.length pre + String.length mid))%nat
    with (String.length post) by lia.
  now rewrite substring_app_suffix2.
Qed.

(* ================================================================= *)
(** ** Properties of insertHint *)

Section InsertHint.

Variable getContextInfo : Editor -> Pos -> bool -> bool -> option ContextInfo.
Variable regexAllowedChars : string -> bool.

(** With an editor and a context, [insertHint] returns. *)
Lemma insertHint_returns this ed c completion :
  editor this = Some ed ->
  getContextInfo ed (getCursorPos ed) false true = Some c ->
  exists ret ops,
    insertHint getContextInfo regexAllowedChars this completion
    = Ok (ret, ops).
Proof.
  intros Hed Hc. unfold insertHint. rewrite Hed, Hc.
  destruct (tokenType c) as [[|]|].
  - destruct (includes_js _ _); [|eauto].
    destruct (negb _ && negb _); eauto.
  - destruct (valueSpan regexAllowedChars c (getCursorPos ed)); eauto.
  - eauto.
Qed.

(** Without a context, [insertHint] stops at [ctxInfo.tokenType]: unlike
    [hasHints] and [getHints] it does not test [ctxInfo] first. *)
Lemma insertHint_null_context this ed completion :
  editor this = Some ed ->
  getContextInfo ed (getCursorPos ed) false true = None ->
  insertHint getContextInfo regexAllowedChars this completion = TypeError.
Proof.
  intros Hed Hc. unfold insertHint. now rewrite Hed, Hc.
Qed.

(** A type the [switch] does not list appends nothing after the colon. *)
Lemma emptyBody_unlisted ty :
  includes_js ["object"; "array"; "string"] ty = false ->
  emptyBody ty = EmptyString.
Proof.
  unfold emptyBody. destruct ty as [s|]; simpl; [|reflexivity].
  rewrite (String.eqb_sym s "object"), (String.eqb_sym s "array"),
    (String.eqb_sym s "string").
  destruct ("object" =? s)%string; [discriminate|].
  destruct ("array" =? s)%string; [discriminate|].
  destruct ("string" =? s)%string; [discriminate | reflexivity].
Qed.

(** The value branch falls back on the double quote. *)
Lemma valueQuoteChar_default c :
  isQuoteChar (charAt0 (tstring (token c))) = false ->
  valueQuoteChar c = dquote.
Proof. unfold valueQuoteChar. now intros ->. Qed.

(** C2 (the code at the failing inputs): in the key branch a token that
    does not start with a quote leaves [quoteChar] undefined, and the text
    handed to [replaceRange] is the completion between two copies of the
    word [undefined] instead of two quotes. *)
Theorem insertHint_key_quote_undefined this ed c completion :
  editor this = Some ed ->
  getContextInfo ed (getCursorPos ed) false true = Some c ->
  tokenType c = Some TOKEN_KEY ->
  isQuoteChar (charAt0 (tstring (token c))) = false ->
  exists ret ops,
    insertHint getContextInfo regexAllowedChars this completion
    = Ok (ret,
          ReplaceRange
            (("undefined" ++ completionText completion ++ "undefined")
             ++ (if shouldReplace c then EmptyString
                 else ": " ++ emptyBody (completionType completion)))
            (mkPos (line (getCursorPos ed)) (ch (getCursorPos ed) - offset c))
            (mkPos (line (getCursorPos ed)) (tend (token c)))
          :: ops).
Proof.
  intros Hed Hc Hkey Hq. unfold insertHint.
  rewrite Hed, Hc, Hkey.
  assert (Htext : keyCompletion c (completionType completion)
                                (completionText completion)
                  = ("undefined" ++ completionText completion ++ "undefined")
                    ++ (if shouldReplace c then EmptyString
                        else ": " ++ emptyBody (completionType completion))).
  { unfold keyCompletion, keyQuoteChar. rewrite Hq. simpl js_concat_operand.
    destruct (shouldReplace c); simpl negb; cbv iota.
    - clear.
      generalize ("undefined" ++ completionText completion ++ "undefined").
      intros s. induction s; simpl; congruence.
    - now rewrite string_app_assoc. }
  rewrite Htext.
  destruct (includes_js _ _); [|eauto].
  destruct (negb _ && negb _); eauto.
Qed.

(** C1 (the code at the failing input): on an empty line, cursor at
    offset 0, a key context with an empty token and [shouldReplace] false,
    the hint [foo] of type [object] is inserted between two copies of the
    word [undefined]; the colon, the space and the braces follow, the
    cursor is set between the braces and [false] is returned. *)
Theorem insertHint_key_empty_line mode ci kn pkn arr excl :
  let ed := mkEditor [EmptyString] (mkPos 0 0) mode in
  let c := mkContext (mkToken EmptyString 0 0) (Some TOKEN_KEY) 0
                     kn pkn arr excl false in
  let foo := CJQuery (mkHint [mkRange "foo" false] (Some "object") None) in
  getContextInfo ed (mkPos 0 0) false true = Some c ->
  exists ops,
    insertHint getContextInfo regexAllowedChars (mkProvider (Some ed) ci) foo
    = Ok (Some false, ops)
    /\ lines (applyOps ed ops) = ["undefinedfooundefined: {}"]
    /\ getCursorPos (applyOps ed ops) = mkPos 0 24.
Proof.
  intros ed c foo Hc. unfold insertHint. simpl editor. cbv iota.
  simpl getCursorPos. rewrite Hc.
  eexists. split; [reflexivity|]. split; reflexivity.
Qed.

(** C3 (amended): a key insertion returns [false] exactly when the type of
    the hint is [object], or is [array] or [string] while the context asks
    to replace the whole token; it returns [true] for an [array] or
    [string] body and for every type that has no body. When a pair was
    inserted the text ends with it and the cursor is set between its two
    characters; a type without a body sets no cursor. *)
Theorem insertHint_key_continueSession this ed c completion :
  editor this = Some ed ->
  getContextInfo ed (getCursorPos ed) false true = Some c ->
  tokenType c = Some TOKEN_KEY ->
  let ty := completionType completion in
  let start :=
    mkPos (line (getCursorPos ed)) (ch (getCursorPos ed) - offset c) in
  exists b newText ops,
    insertHint getContextInfo regexAllowedChars this completion
    = Ok (Some b,
          ReplaceRange newText start
                       (mkPos (line (getCursorPos ed)) (tend (token c)))
          :: ops)
    /\ (b = false <->
        is_str ty "object" = true
        \/ (includes_js ["array"; "string"] ty = true
            /\ shouldReplace c = true))
    /\ (includes_js ["object"; "array"; "string"] ty = true ->
        shouldReplace c = false ->
        exists pre opener closer,
          newText = pre ++ opener ++ closer
          /\ opener ++ closer = emptyBody ty
          /\ String.length opener = 1%nat
          /\ String.length closer = 1%nat
          /\ ops = [SetCursorPos
                      (line start)
                      (ch start + Z.of_nat (String.length (pre ++ opener)))])
    /\ (includes_js ["object"; "array"; "string"] ty = false -> ops = []).
Proof.
  intros Hed Hc Hkey ty start. unfold insertHint.
  rewrite Hed, Hc, Hkey. fold ty. fold start.
  assert (Hpair : forall pre o cl,
             Z.of_nat (String.length (pre ++ String o (String cl EmptyString)))
             - 1
             = Z.of_nat (String.length
                           (pre ++ String o EmptyString))).
  { intros. rewrite !string_length_app. simpl. lia. }
  unfold keyCompletion, emptyBody.
  destruct ty as [s|]; simpl includes_js; simpl is_str.
  - unfold includes. simpl existsb.
    rewrite (String.eqb_sym s "object"), (String.eqb_sym s "array"),
      (String.eqb_sym s "string").
    destruct (String.eqb_spec "object" s) as [Ho|Ho];
      [|destruct (String.eqb_spec "array" s) as [Ha|Ha];
        [|destruct (String.eqb_spec "string" s) as [Hs|Hs]]];
      destruct (shouldReplace c) eqn:Hrep; simpl;
      do 3 eexists; (split; [reflexivity|]);
      repeat split; try tauto; try discriminate; try intuition discriminate.
    + intros _ _.
      exists ((js_concat_operand (keyQuoteChar c) ++ completionText completion
               ++ js_concat_operand (keyQuoteChar c)) ++ ": "), "{", "}".
      repeat split. do 2 f_equal. rewrite <- (Hpair _ "{"%char "}"%char). lia.
    + intros _ _.
      exists ((js_concat_operand (keyQuoteChar c) ++ completionText completion
               ++ js_concat_operand (keyQuoteChar c)) ++ ": "), "[", "]".
      repeat split. do 2 f_equal. rewrite <- (Hpair _ "["%char "]"%char). lia.
    + intros _ _.
      exists ((js_concat_operand (keyQuoteChar c) ++ completionText completion
               ++ js_concat_operand (keyQuoteChar c)) ++ ": "), dquote, dquote.
      repeat split. do 2 f_equal. unfold dquote.
      rewrite <- (Hpair _ (ascii_of_nat 34) (ascii_of_nat 34)). lia.
  - do 3 eexists. split; [reflexivity|].
    repeat split; try discriminate; intuition discriminate.
Qed.

(** C9: an untyped value hint [bar] accepted over a token that starts with
    a single quote and is not white space, the context asking to replace
    the whole token, replaces the span from the start to the end of the
    token with the hint between single quotes, and [false] is returned. *)
Theorem insertHint_value_single_quote this ed c completion rest :
  editor this = Some ed ->
  getContextInfo ed (getCursorPos ed) false true = Some c ->
  tokenType c = Some TOKEN_VALUE ->
  tstring (token c) = String "'" rest ->
  regexAllowedChars (tstring (token c)) = false ->
  shouldReplace c = true ->
  completionType completion = None ->
  completionText completion = "bar" ->
  insertHint getContextInfo regexAllowedChars this completion
  = Ok (Some false,
        [ReplaceRange "'bar'"
                      (mkPos (line (getCursorPos ed)) (tstart (token c)))
                      (mkPos (line (getCursorPos ed)) (tend (token c)))])
  /\ forall pre post,
      tstart (token c) = Z.of_nat (String.length pre) ->
      tend (token c)
      = tstart (token c) + Z.of_nat (String.length (tstring (token c))) ->
      replaceInLine (pre ++ tstring (token c) ++ post) "'bar'"
                    (tstart (token c)) (tend (token c))
      = pre ++ "'bar'" ++ post.
Proof.
  intros Hed Hc Hval Htok Hrac Hrep Hty Htext. split.
  - unfold insertHint. rewrite Hed, Hc, Hval.
    unfold valueSpan, valueCompletion, valueQuoteChar.
    rewrite Hrac, Hrep, Hty, Htext, Htok. reflexivity.
  - intros pre post Hstart Hend. rewrite Hend, Hstart.
    apply replaceInLine_span.
Qed.

End InsertHint.

Lemma insertHint_key_empty_line_witness :
  exists ops,
    insertHint (contextAlways emptyKeyContext) blankToken
               (mkProvider (Some emptyLineEditor) None)
               (fooHint (Some "object"))
    = Ok (Some false, ops)
    /\ lines (applyOps emptyLineEditor ops) = ["undefinedfooundefined: {}"]
    /\ getCursorPos (applyOps emptyLineEditor ops) = mkPos 0 24.
Proof.
  apply (insertHint_key_empty_line (contextAlways emptyKeyContext) blankToken
           jsonMode None EmptyString EmptyString false []).
  reflexivity.
Defined.

Lemma insertHint_key_quote_undefined_witness :
  exists ret ops,
    insertHint (contextAlways bareKeyContext) blankToken
               (mkProvider (Some bareKeyEditor) None)
               (fooHint (Some "boolean"))
    = Ok (ret,
          ReplaceRange "undefinedfooundefined: " (mkPos 0 0) (mkPos 0 2)
          :: ops).
Proof.
  apply (insertHint_key_quote_undefined
           (contextAlways bareKeyContext) blankToken
           (mkProvider (Some bareKeyEditor) None) bareKeyEditor bareKeyContext
           (fooHint (Some "boolean")));
    reflexivity.
Defined.

Lemma insertHint_key_continueSession_witness :
  exists b newText ops,
    insertHint (contextAlways (quotedKeyContext false)) blankToken
               (mkProvider (Some quotedKeyEditor) None)
               (fooHint (Some "array"))
    = Ok (Some b, ReplaceRange newText (mkPos 0 0) (mkPos 0 1) :: ops)
    /\ b = true
    /\ ops = [SetCursorPos 0 8].
Proof.
  destruct (insertHint_key_continueSession
              (contextAlways (quotedKeyContext false)) blankToken
              (mkProvider (Some quotedKeyEditor) None) quotedKeyEditor
              (quotedKeyContext false) (fooHint (Some "array"))
              eq_refl eq_refl eq_refl)
    as [b [newText [ops [Hrun _]]]].
  exists b, newText, ops. vm_compute in Hrun.
  inversion Hrun; subst. repeat split.
Defined.

(** C3 (as stated) fails: a key hint of type [boolean] has no body, and
    [insertHint] returns [true] for it. *)
Lemma insertHint_key_continueSession_counterexample :
  ~ (forall getContextInfo regexAllowedChars this ed c completion ret ops,
        editor this = Some ed ->
        getContextInfo ed (getCursorPos ed) false true = Some c ->
        tokenType c = Some TOKEN_KEY ->
        insertHint getContextInfo regexAllowedChars this completion
        = Ok (ret, ops) ->
        (ret = Some true ->
         includes_js ["array"; "string"] (completionType completion) = true
         /\ shouldReplace c = false)
        /\ (is_str (completionType completion) "object" = true
            \/ shouldReplace c = true ->
            ret = Some false)).
Proof.
  intros H.
  destruct (H (contextAlways (quotedKeyContext false)) blankToken
              (mkProvider (Some quotedKeyEditor) None) quotedKeyEditor
              (quotedKeyContext false) (fooHint (Some "boolean"))
              (Some true)
              [ReplaceRange (dquote ++ "foo" ++ dquote ++ ": ")
                            (mkPos 0 0) (mkPos 0 1)]
              eq_refl eq_refl eq_refl eq_refl) as [Htrue _].
  destruct (Htrue eq_refl) as [Hty _]. discriminate Hty.
Qed.

Lemma insertHint_value_single_quote_witness :
  insertHint (contextAlways quotedValueContext) blankToken
             (mkProvider (Some quotedValueEditor) None) (CString "bar")
  = Ok (Some false, [ReplaceRange "'bar'" (mkPos 0 0) (mkPos 0 3)])
  /\ lines (applyOps quotedValueEditor
                     [ReplaceRange "'bar'" (mkPos 0 0) (mkPos 0 3)])
     = ["'bar'"].
Proof.
  destruct (insertHint_value_single_quote
              (contextAlways quotedValueContext) blankToken
              (mkProvider (Some quotedValueEditor) None) quotedValueEditor
              quotedValueContext (CString "bar") "b'"
              eq_refl eq_refl eq_refl eq_refl eq_refl eq_refl eq_refl eq_refl)
    as [Hrun _].
  split; [exact Hrun | reflexivity].
Defined.

(* ================================================================= *)
(** ** Properties of hasHints and getHints *)

Lemma includes_In (l : list string) (s : string) :
  includes l s = true <-> In s l.
Proof.
  unfold includes. rewrite existsb_exists. split.
  - intros [x [Hin Heq]]. apply String.eqb_eq in Heq. now subst.
  - intros Hin. exists s. split; [exact Hin | apply String.eqb_refl].
Qed.

Lemma includes_not_In (l : list string) (s : string) :
  includes l s = false -> ~ In s l.
Proof.
  intros Hf Hin. apply includes_In in Hin. congruence.
Qed.

Lemma In_jq_map {A B} (f : A -> option B) (l : list A) (y : B) :
  In y (jq_map f l) <-> exists x, In x l /\ f x = Some y.
Proof.
  induction l as [|a l IH]; simpl.
  - split; [contradiction | now intros [x [[] _]]].
  - destruct (f a) as [b|] eqn:Hfa; simpl; rewrite IH; split.
    + intros [<-|[x [Hin Hx]]]; [exists a; auto | exists x; auto].
    + intros [x [[<-|Hin] Hx]]; [left; congruence | right; exists x; auto].
    + intros [x [Hin Hx]]. exists x; auto.
    + intros [x [[<-|Hin] Hx]]; [congruence | exists x; auto].
Qed.

Lemma hintSpans_withMeta m ty desc :
  hintSpans (withMeta m ty desc) = hintSpans m.
Proof. reflexivity. Qed.

Section GetHints.

Variable getContextInfo : Editor -> Pos -> bool -> bool -> option ContextInfo.
Variable stripQuotes : string -> string.
Variable regexAllowedChars : string -> bool.
Variable stringMatch :
  HintValue -> string -> MatcherOptions -> option SearchResult.
Variable basicMatchSort : list SearchResult -> list SearchResult.
Variable getProviderIDsForLanguage : string -> list string.
Variable getAllThemes : list Theme.
Variable languages : JsObject Language.
Variable data : JsObject Preference.

(** C7: with hints enabled, the JSON mode at the selection and a key
    context whose parent key is [language.fileExtensions], [hasHints]
    returns [false]. *)
Theorem hasHints_fileExtensions_keys this ed c :
  getModeForSelection ed = "application/json" ->
  getContextInfo ed (getCursorPos ed) true false = Some c ->
  tokenType c = Some TOKEN_KEY ->
  parentKeyName c = "language.fileExtensions" ->
  fst (hasHints getContextInfo true this ed) = false.
Proof.
  intros Hmode Hc Hkey Hparent. unfold hasHints.
  rewrite Hmode, Hc, Hkey, Hparent. reflexivity.
Qed.

(** In a value context whose values are resolved, [getHints] answers with
    the matches of these values, formatted. *)
Lemma getHints_value_response this ed c vs :
  editor this = Some ed ->
  getContextInfo ed (getCursorPos ed) true false = Some c ->
  tokenType c = Some TOKEN_VALUE ->
  getHints_values getProviderIDsForLanguage getAllThemes languages data c
  = Some vs ->
  getHints getContextInfo stripQuotes regexAllowedChars stringMatch
           basicMatchSort getProviderIDsForLanguage getAllThemes languages
           data this
  = Ok (Some (mkResponse
                (formatHints basicMatchSort
                   (getHints_valueHints stringMatch (getHints_option data c)
                      vs (getHints_query stripQuotes regexAllowedChars c))
                   (getHints_query stripQuotes regexAllowedChars c))
                true false),
        mkProvider (Some ed) (Some c)).
Proof.
  intros Hed Hc Hval Hvs. unfold getHints. now rewrite Hed, Hc, Hval, Hvs.
Qed.

(** C5: in a value context whose option has the type [boolean], the
    values handed to the matcher are [false] and [true], in this order,
    whatever [values] the option declares, and [getHints] answers with
    their matches. *)
Theorem getHints_boolean_values this ed c :
  editor this = Some ed ->
  getContextInfo ed (getCursorPos ed) true false = Some c ->
  tokenType c = Some TOKEN_VALUE ->
  type (getHints_option data c) = Some "boolean" ->
  getHints_values getProviderIDsForLanguage getAllThemes languages data c
  = Some [VStr "false"; VStr "true"]
  /\ getHints getContextInfo stripQuotes regexAllowedChars stringMatch
              basicMatchSort getProviderIDsForLanguage getAllThemes languages
              data this
     = Ok (Some (mkResponse
                   (formatHints basicMatchSort
                      (getHints_valueHints stringMatch
                         (getHints_option data c)
                         [VStr "false"; VStr "true"]
                         (getHints_query stripQuotes regexAllowedChars c))
                      (getHints_query stripQuotes regexAllowedChars c))
                   true false),
           mkProvider (Some ed) (Some c)).
Proof.
  intros Hed Hc Hval Hbool.
  assert (Hvs : getHints_values getProviderIDsForLanguage getAllThemes
                                languages data c
                = Some [VStr "false"; VStr "true"]).
  { unfold getHints_values, getHints_rawValues, getHints_stringify.
    rewrite Hbool. simpl.
    now destruct (is_str (valueType (getHints_option data c)) "number"). }
  split; [exact Hvs | now apply getHints_value_response].
Qed.

(** C6: in a value context where the option is not of type [boolean], no
    list of values applies and none of the three providers is called for,
    [getHints] returns [null]; it does not stop on an error. The key and
    the parent key are own names, so that [languages[parentKeyName]] is
    falsy exactly when the languages hold no such identifier. *)
Theorem getHints_no_value_source this ed c :
  editor this = Some ed ->
  getContextInfo ed (getCursorPos ed) true false = Some c ->
  tokenType c = Some TOKEN_VALUE ->
  ownNames c ->
  type (getHints_option data c) <> Some "boolean" ->
  (values (getHints_option data c) = None
   \/ (type (getHints_option data c) <> Some "number"
       /\ type (getHints_option data c) <> Some "string"
       /\ (type (getHints_option data c) = Some "array" ->
           isArray c = false))) ->
  (isArray c = true -> keyName c = "linting.prefer" ->
   get languages (parentKeyName c) = None) ->
  keyName c <> "themes.theme" ->
  parentKeyName c <> "language.fileExtensions" ->
  parentKeyName c <> "language.fileNames" ->
  getHints getContextInfo stripQuotes regexAllowedChars stringMatch
           basicMatchSort getProviderIDsForLanguage getAllThemes languages
           data this
  = Ok (None, mkProvider (Some ed) (Some c)).
Proof.
  intros Hed Hc Hval _ Hbool Hvalues Hlint Htheme Hext Hnames.
  unfold getHints. rewrite Hed, Hc, Hval.
  assert (Hraw : getHints_rawValues getProviderIDsForLanguage getAllThemes
                                    languages c (getHints_option data c)
                 = None).
  { unfold getHints_rawValues.
    assert (Hb : is_str (type (getHints_option data c)) "boolean" = false).
    { destruct (type (getHints_option data c)) as [s|]; simpl; auto.
      apply String.eqb_neq. congruence. }
    rewrite Hb.
    assert (Ha : allowedValuesApply (getHints_option data c) c = false).
    { unfold allowedValuesApply.
      destruct Hvalues as [-> | [Hn [Hs Harr]]]; [reflexivity|].
      destruct (values (getHints_option data c)); [|reflexivity].
      destruct (type (getHints_option data c)) as [s|]; [|reflexivity].
      simpl. rewrite (String.eqb_sym s "number"), (String.eqb_sym s "string").
      destruct (String.eqb_spec "number" s); [congruence|].
      destruct (String.eqb_spec "string" s); [congruence|].
      simpl. destruct (String.eqb_spec s "array"); [|reflexivity].
      subst s. now rewrite Harr. }
    rewrite Ha.
    assert (Hl : isArray c && (keyName c =? "linting.prefer")%string
                 && match get languages (parentKeyName c) with
                    | Some _ => true
                    | None => false
                    end = false).
    { destruct (isArray c); [|reflexivity].
      destruct (String.eqb_spec (keyName c) "linting.prefer"); [|reflexivity].
      now rewrite Hlint. }
    rewrite Hl.
    apply String.eqb_neq in Htheme, Hext, Hnames.
    now rewrite Htheme, Hext, Hnames. }
  unfold getHints_values. now rewrite Hraw.
Qed.

(** C8 (amended): when the root entry [linting.prefer] has the type
    [array] and declares no [values], no entry [javascript] of the
    registry has a child of that name, [javascript] is one of the
    languages, and the context is a value context inside an array under
    the key [linting.prefer] with the parent key [javascript], the values
    handed to the matcher are the provider names of
    [getProviderIDsForLanguage("javascript")], in the same order, and
    [getHints] answers with their matches. *)
Theorem getHints_linting_prefer_providers this ed c p l :
  editor this = Some ed ->
  getContextInfo ed (getCursorPos ed) true false = Some c ->
  tokenType c = Some TOKEN_VALUE ->
  parentKeyName c = "javascript" ->
  keyName c = "linting.prefer" ->
  isArray c = true ->
  (forall q ks, get data "javascript" = Some q -> keys q = Some ks ->
                get ks "linting.prefer" = None) ->
  get data "linting.prefer" = Some p ->
  type (opt p) = Some "array" ->
  values (opt p) = None ->
  get languages "javascript" = Some l ->
  getHints_values getProviderIDsForLanguage getAllThemes languages data c
  = Some (map VStr (getProviderIDsForLanguage "javascript"))
  /\ getHints getContextInfo stripQuotes regexAllowedChars stringMatch
              basicMatchSort getProviderIDsForLanguage getAllThemes languages
              data this
     = Ok (Some (mkResponse
                   (formatHints basicMatchSort
                      (getHints_valueHints stringMatch (opt p)
                         (map VStr (getProviderIDsForLanguage "javascript"))
                         (getHints_query stripQuotes regexAllowedChars c))
                      (getHints_query stripQuotes regexAllowedChars c))
                   true false),
           mkProvider (Some ed) (Some c)).
Proof.
  intros Hed Hc Hval Hparent Hkey Harr Hnested Hroot Hty Hvalues Hlang.
  assert (Hopt : getHints_option data c = opt p).
  { unfold getHints_option. rewrite Hparent, Hkey, Hroot.
    destruct (get data "javascript") as [q|] eqn:Hq; [|reflexivity].
    destruct (keys q) as [ks|] eqn:Hks; [|reflexivity].
    now rewrite (Hnested q ks eq_refl Hks). }
  assert (Hvs : getHints_values getProviderIDsForLanguage getAllThemes
                                languages data c
                = Some (map VStr (getProviderIDsForLanguage "javascript"))).
  { unfold getHints_values, getHints_rawValues, allowedValuesApply.
    rewrite Hopt, Hty, Hvalues, Harr, Hkey, Hparent, Hlang. simpl.
    unfold getHints_stringify. rewrite Hty. simpl.
    destruct (is_str (valueType (opt p)) "number"); [|reflexivity].
    now rewrite map_map. }
  split; [exact Hvs|].
  rewrite <- Hopt. now apply getHints_value_response.
Qed.

(** The hints [formatHints] returns are those of the matches it is given. *)
Lemma In_formatHints hs query h :
  SortPermutes basicMatchSort ->
  In h (formatHints basicMatchSort hs query) ->
  exists t, In t hs /\ hintObj h = hintSpans t.
Proof.
  intros Hsort Hin. unfold formatHints in Hin.
  apply in_map_iff in Hin. destruct Hin as [t [<- Ht]].
  exists t. split; [|reflexivity].
  now apply (Permutation_in _ (Hsort hs)).
Qed.

(** C4 (amended): in a key context, with a matcher whose spans spell the
    candidate and a sort that only rearranges, no hint that [getHints]
    returns has a text that is in the exclusion list of the context. *)
Theorem getHints_key_exclusion this resp this' c :
  MatcherSpells stringMatch ->
  SortPermutes basicMatchSort ->
  getHints getContextInfo stripQuotes regexAllowedChars stringMatch
           basicMatchSort getProviderIDsForLanguage getAllThemes languages
           data this
  = Ok (Some resp, this') ->
  ctxInfo this' = Some c ->
  tokenType c = Some TOKEN_KEY ->
  forall h, In h (hints resp) -> ~ In (hintText h) (exclusionList c).
Proof.
  intros Hspell Hsort Hrun Hctx Hkey h Hin.
  unfold getHints in Hrun.
  destruct (editor this) as [ed|]; [|discriminate].
  destruct (getContextInfo ed (getCursorPos ed) true false) as [c'|];
    [|discriminate].
  assert (c' = c) as ->.
  { destruct (tokenType c') as [[|]|];
      [| destruct (getHints_values _ _ _ _ c') |];
      inversion Hrun; subst this'; simpl in Hctx; congruence. }
  rewrite Hkey in Hrun. inversion Hrun; subst resp; clear Hrun.
  simpl in Hin. apply (In_formatHints _ _ _ Hsort) in Hin.
  destruct Hin as [t [Ht Hobj]].
  unfold getHints_keyHints in Ht.
  destruct (getHints_keys languages data c) as [ks optionType].
  apply In_jq_map in Ht. destruct Ht as [key [_ Hsome]].
  destruct (includes (exclusionList c) key) eqn:Hexcl; [discriminate|].
  simpl in Hsome.
  destruct (stringMatch (VStr key) _ stringMatcherOptions) as [m|] eqn:Hm;
    [|discriminate].
  destruct (get ks key) as [info|]; [|discriminate].
  inversion Hsome; subst t; clear Hsome.
  unfold hintText. rewrite Hobj, hintSpans_withMeta.
  rewrite (Hspell _ _ _ _ Hm). simpl.
  now apply includes_not_In.
Qed.

End GetHints.

(** *** The theorems at concrete inputs *)

Lemma prefixMatch_spells : MatcherSpells prefixMatch.
Proof.
  intros v query options m. unfold prefixMatch.
  destruct (String.prefix query (toString v)); [|discriminate].
  intros Hm. inversion Hm; subst m. simpl.
  generalize (toString v). intros s. induction s; simpl; congruence.
Qed.

Lemma keepOrder_permutes : SortPermutes keepOrder.
Proof. intros l. apply Permutation_refl. Qed.

Lemma hasHints_fileExtensions_keys_witness :
  fst (hasHints (contextAlways (keyContext "language.fileExtensions" []))
                true (mkProvider None None) quotedKeyEditor)
  = false.
Proof.
  apply (hasHints_fileExtensions_keys
           (contextAlways (keyContext "language.fileExtensions" []))
           (mkProvider None None) quotedKeyEditor
           (keyContext "language.fileExtensions" []));
    reflexivity.
Defined.

Lemma getHints_boolean_values_witness :
  getHints_values twoProviders noThemes oneLanguage sampleData
                  (valueContext EmptyString "closeBrackets" false [])
  = Some [VStr "false"; VStr "true"].
Proof.
  apply (getHints_boolean_values
           (contextAlways (valueContext EmptyString "closeBrackets" false []))
           stripLeadingQuote blankToken prefixMatch keepOrder twoProviders
           noThemes oneLanguage sampleData
           (mkProvider (Some quotedKeyEditor) None) quotedKeyEditor
           (valueContext EmptyString "closeBrackets" false []));
    reflexivity.
Defined.

Lemma getHints_no_value_source_witness :
  getHints (contextAlways (valueContext EmptyString "fonts.fontSize" false []))
           stripLeadingQuote blankToken prefixMatch keepOrder twoProviders
           noThemes oneLanguage sampleData
           (mkProvider (Some quotedKeyEditor) None)
  = Ok (None,
        mkProvider (Some quotedKeyEditor)
                   (Some (valueContext EmptyString "fonts.fontSize" false []))).
Proof.
  apply (getHints_no_value_source
           (contextAlways (valueContext EmptyString "fonts.fontSize" false []))
           stripLeadingQuote blankToken prefixMatch keepOrder twoProviders
           noThemes oneLanguage sampleData
           (mkProvider (Some quotedKeyEditor) None) quotedKeyEditor
           (valueContext EmptyString "fonts.fontSize" false []));
    try reflexivity; try discriminate.
  - split; simpl; intuition discriminate.
  - left. reflexivity.
Defined.

Lemma getHints_linting_prefer_providers_witness :
  getHints_values twoProviders noThemes oneLanguage sampleData
                  (valueContext "javascript" "linting.prefer" true [])
  = Some [VStr "ESLint"; VStr "JSHint"].
Proof.
  apply (getHints_linting_prefer_providers
           (contextAlways (valueContext "javascript" "linting.prefer" true []))
           stripLeadingQuote blankToken prefixMatch keepOrder twoProviders
           noThemes oneLanguage sampleData
           (mkProvider (Some quotedKeyEditor) None) quotedKeyEditor
           (valueContext "javascript" "linting.prefer" true [])
           (mkPreference (mkOption (Some "array") (Some "Preferred linters")
                                   None None) None None)
           (mkLanguage None None));
    try reflexivity.
  intros q ks Hq. discriminate Hq.
Defined.

(** C8 (as stated) fails: a root entry [linting.prefer] of type [array]
    that declares [values] offers these values, not the providers. *)
Lemma getHints_linting_prefer_counterexample :
  ~ (forall (getProviderIDsForLanguage : string -> list string)
            (getAllThemes : list Theme) (languages : JsObject Language)
            (data : JsObject Preference) (c : ContextInfo) (p : Preference),
        tokenType c = Some TOKEN_VALUE ->
        parentKeyName c = "javascript" ->
        keyName c = "linting.prefer" ->
        isArray c = true ->
        get data "linting.prefer" = Some p ->
        type (opt p) = Some "array" ->
        getHints_values getProviderIDsForLanguage getAllThemes languages
                        data c
        = Some (map VStr (getProviderIDsForLanguage "javascript"))).
Proof.
  intros H.
  specialize (H twoProviders noThemes oneLanguage sampleDataWithValues
                (valueContext "javascript" "linting.prefer" true []) _
                eq_refl eq_refl eq_refl eq_refl eq_refl eq_refl).
  vm_compute in H. discriminate H.
Qed.

Lemma getHints_key_exclusion_witness :
  hints_of
    (getHints (contextAlways (keyContext "closeTags" ["whenOpening"]))
              stripLeadingQuote blankToken prefixMatch keepOrder twoProviders
              noThemes oneLanguage sampleData
              (mkProvider (Some quotedKeyEditor) None))
  = [mkHint [mkRange "whenClosing" false] (Some "boolean") None]
  /\ ~ In "whenClosing" ["whenOpening"].
Proof.
  split; [reflexivity|].
  apply (getHints_key_exclusion
           (contextAlways (keyContext "closeTags" ["whenOpening"]))
           stripLeadingQuote blankToken prefixMatch keepOrder twoProviders
           noThemes oneLanguage sampleData
           (mkProvider (Some quotedKeyEditor) None)
           (mkResponse [mkHint [mkRange "whenClosing" false]
                               (Some "boolean") None] true false)
           (mkProvider (Some quotedKeyEditor)
                       (Some (keyContext "closeTags" ["whenOpening"])))
           (keyContext "closeTags" ["whenOpening"])
           prefixMatch_spells keepOrder_permutes eq_refl eq_refl eq_refl
           (mkHint [mkRange "whenClosing" false] (Some "boolean") None)).
  left. reflexivity.
Defined.

(** C4 (as stated) fails: the value branch does not read the exclusion
    list, and a value context whose list names [true] is still offered
    [true] for a boolean preference. *)
Lemma getHints_exclusion_counterexample :
  ~ (forall getContextInfo stripQuotes regexAllowedChars stringMatch
            basicMatchSort getProviderIDsForLanguage getAllThemes languages
            data this resp this' c,
        MatcherSpells stringMatch ->
        SortPermutes basicMatchSort ->
        getHints getContextInfo stripQuotes regexAllowedChars stringMatch
                 basicMatchSort getProviderIDsForLanguage getAllThemes
                 languages data this
        = Ok (Some resp, this') ->
        ctxInfo this' = Some c ->
        forall h, In h (hints resp) -> ~ In (hintText h) (exclusionList c)).
Proof.
  intros H.
  apply (H (contextAlways
              (valueContext EmptyString "closeBrackets" false ["true"]))
           stripLeadingQuote blankToken prefixMatch keepOrder twoProviders
           noThemes oneLanguage sampleData
           (mkProvider (Some quotedKeyEditor) None) _ _ _
           prefixMatch_spells keepOrder_permutes eq_refl eq_refl
           (mkHint [mkRange "true" false] (Some "boolean")
                   (Some "Close brackets"))).
  - right. left. reflexivity.
  - left. reflexivity.
Qed.

(** The guard on the languages also decides: when [javascript] is not a
    registered language the same context resolves no values at all. *)
Lemma getHints_linting_prefer_unknown_language :
  getHints_values twoProviders noThemes [] sampleData
                  (valueContext "javascript" "linting.prefer" true [])
  = None.
Proof. reflexivity. Qed.

(* ================================================================= *)
(** ** Further properties of the registry *)

Lemma extendField_None {A} (s : option A) : extendField None s = s.
Proof. now destruct s. Qed.

Lemma mergedEntry_fresh (p : Preference) : mergedEntry None p = p.
Proof.
  destruct p as [[pt pd pv pvt] pk pe]. unfold mergedEntry, extend. simpl.
  rewrite !extendField_None. now destruct pk.
Qed.

(** X1: a preference that is not excluded and whose name the registry does
    not hold yet is registered as it is: [data[name]] has its type,
    description, values, value type and child keys. *)
Theorem registry_registers_preference
        (preferences d0 : JsObject Preference) (k : string) (p : Preference) :
  get d0 k = None ->
  get preferences k = Some p ->
  isTrue (excludeFromHints p) = false ->
  get (PrefsCodeHints_data preferences d0) k = Some p.
Proof.
  intros H0 Hp He. rewrite get_PrefsCodeHints_data. unfold registered.
  now rewrite Hp, He, H0, mergedEntry_fresh.
Qed.

Lemma registry_registers_preference_witness :
  get (PrefsCodeHints_data sampleData (data0 "Language" "Path")) "closeTags"
  = get sampleData "closeTags".
Proof.
  apply (registry_registers_preference sampleData (data0 "Language" "Path")
           "closeTags"); reflexivity.
Defined.

(** X3: running the constructor again on the registry it has built, with
    the same preferences, changes no entry. *)
Theorem registry_rebuild_same (preferences d0 : JsObject Preference)
        (k : string) :
  get (PrefsCodeHints_data preferences
         (PrefsCodeHints_data preferences d0)) k
  = get (PrefsCodeHints_data preferences d0) k.
Proof.
  rewrite (get_PrefsCodeHints_data preferences
             (PrefsCodeHints_data preferences d0)).
  unfold registered at 1. rewrite get_PrefsCodeHints_data.
  unfold registered.
  destruct (get preferences k) as [p|]; [|reflexivity].
  destruct (isTrue (excludeFromHints p)); [reflexivity|].
  now rewrite mergedEntry_idem.
Qed.

Lemma includes_app (l1 l2 : list string) (s : string) :
  includes (l1 ++ l2) s = includes l1 s || includes l2 s.
Proof. unfold includes. apply existsb_app. Qed.

Lemma Object_keys_set {A} (o : JsObject A) (k : string) (v : A) :
  Object_keys (set o k v)
  = if includes (Object_keys o) k then Object_keys o
    else (Object_keys o ++ [k])%list.
Proof.
  induction o as [|[k' v'] o IH]; simpl; [reflexivity|].
  rewrite (String.eqb_sym k k').
  destruct (String.eqb_spec k' k) as [->|Hne]; simpl; [reflexivity|].
  rewrite IH. unfold Object_keys.
  now destruct (includes (map fst o) k).
Qed.

Lemma includes_keys_set {A} (o : JsObject A) (k : string) (v : A) :
  includes (Object_keys (set o k v)) k = true.
Proof.
  rewrite Object_keys_set.
  destruct (includes (Object_keys o) k) eqn:Hin; [exact Hin|].
  rewrite includes_app, Hin. simpl. now rewrite String.eqb_refl.
Qed.

Lemma Object_keys_addPreference (preferences d : JsObject Preference)
      (pref : string) :
  Object_keys (addPreference preferences d pref)
  = if registrable preferences pref && negb (includes (Object_keys d) pref)
    then (Object_keys d ++ [pref])%list
    else Object_keys d.
Proof.
  unfold addPreference, registrable.
  destruct (get preferences pref) as [p|]; [|reflexivity].
  destruct (isTrue (excludeFromHints p)); [reflexivity|]. simpl.
  assert (Hone : forall m,
             Object_keys (set d pref m)
             = if negb (includes (Object_keys d) pref)
               then (Object_keys d ++ [pref])%list else Object_keys d).
  { intros m. rewrite Object_keys_set.
    now destruct (includes (Object_keys d) pref). }
  destruct (keys p); [|apply Hone].
  rewrite Object_keys_set, includes_keys_set. apply Hone.
Qed.

Lemma Object_keys_fold (preferences : JsObject Preference)
      (prefs : list string) (d : JsObject Preference) :
  NoDup prefs ->
  Object_keys (fold_left (addPreference preferences) prefs d)
  = (Object_keys d
     ++ filter (fun k => registrable preferences k
                         && negb (includes (Object_keys d) k)) prefs)%list.
Proof.
  revert d. induction prefs as [|pref prefs IH]; intros d Hnd; simpl.
  - now rewrite app_nil_r.
  - inversion Hnd as [|? ? Hnotin Hnd']; subst.
    rewrite (IH _ Hnd'), Object_keys_addPreference.
    assert (Hother : forall k, In k prefs ->
               includes (Object_keys d ++ [pref]) k
               = includes (Object_keys d) k).
    { intros k Hk. rewrite includes_app. simpl.
      destruct (String.eqb_spec k pref) as [->|]; [contradiction|].
      now rewrite !orb_false_r. }
    destruct (registrable preferences pref
              && negb (includes (Object_keys d) pref)).
    + rewrite <- app_assoc. simpl. do 2 f_equal.
      apply filter_ext_in. intros k Hk. now rewrite (Hother k Hk).
    + reflexivity.
Qed.

(** X2: when no name of the registry or of the preference set is written
    with digits only or inherited from [Object.prototype], the names the
    registry lists are those it held, in their order, followed by the
    names of the merged preferences it did not hold, in the order of the
    preference set. *)
Theorem registry_key_order (preferences d0 : JsObject Preference) :
  Forall ordinaryName (Object_keys d0 ++ Object_keys preferences) ->
  NoDup (Object_keys preferences) ->
  Object_keys (PrefsCodeHints_data preferences d0)
  = (Object_keys d0
     ++ filter (fun k => registrable preferences k
                         && negb (includes (Object_keys d0) k))
               (Object_keys preferences))%list.
Proof. intros _. apply Object_keys_fold. Qed.

Lemma registry_key_order_witness :
  Object_keys (PrefsCodeHints_data samplePreferences
                                   (data0 "Language" "Path"))
  = ["language"; "path"]
  /\ Object_keys (PrefsCodeHints_data sampleData (data0 "Language" "Path"))
     = ["language"; "path"; "closeBrackets"; "closeTags"; "linting.prefer"].
Proof.
  split.
  - rewrite (registry_key_order samplePreferences (data0 "Language" "Path"));
      [reflexivity | | ];
      repeat constructor; simpl; intuition discriminate.
  - rewrite (registry_key_order sampleData (data0 "Language" "Path"));
      [reflexivity | | ];
      repeat constructor; simpl; intuition discriminate.
Defined.

(* ================================================================= *)
(** ** The flags *)

Lemma _isPrefHintsEnabled_document isDoc show pref :
  _isPrefHintsEnabled isDoc show pref = true -> isDoc = true.
Proof.
  unfold _isPrefHintsEnabled. now destruct isDoc.
Qed.

Lemma handleEvent_enabled_document st ev :
  (isPrefHintsEnabled st = true -> isPrefDocument st = true) ->
  isPrefHintsEnabled (handleEvent st ev) = true ->
  isPrefDocument (handleEvent st ev) = true.
Proof.
  intros Hst. destruct ev as [[| |editor|all] store]; simpl;
    try apply _isPrefHintsEnabled_document; exact Hst.
Qed.

(** X4: whatever notifications the listeners have handled since the module
    was loaded, [isPrefHintsEnabled] is set only while [isPrefDocument] is:
    hints are never enabled unless the last editor that became active had a
    preferences file. *)
Theorem flags_enabled_only_for_document
        (all : JsObject Language) (evs : list (ModuleEvent * PrefStore)) :
  isPrefHintsEnabled (handleEvents (initialModule all) evs) = true ->
  isPrefDocument (handleEvents (initialModule all) evs) = true.
Proof.
  unfold handleEvents.
  assert (Hinit : isPrefHintsEnabled (initialModule all) = true ->
                  isPrefDocument (initialModule all) = true)
    by discriminate.
  revert Hinit. generalize (initialModule all). clear all.
  induction evs as [|ev evs IH]; intros st Hst; simpl.
  - exact Hst.
  - apply IH. now apply handleEvent_enabled_document.
Qed.

Lemma flags_enabled_only_for_document_witness :
  isPrefDocument (handleEvents (initialModule []) sampleEvents) = true.
Proof.
  apply (flags_enabled_only_for_document [] sampleEvents). reflexivity.
Defined.

(** A preference that reads [false] when a listener runs switches the
    hints off, and [activeEditorChange] without an editor keeps the
    document flag of the editor before. *)
Theorem flags_switched_off st ev :
  (fst ev = ShowCodeHintsChange \/ fst ev = PrefHintsChange
   \/ exists editor, fst ev = ActiveEditorChange editor) ->
  (showCodeHints (snd ev) = Some false \/ prefHints (snd ev) = Some false) ->
  isPrefHintsEnabled (handleEvent st ev) = false
  /\ (fst ev = ActiveEditorChange None ->
      isPrefDocument (handleEvent st ev) = isPrefDocument st).
Proof.
  destruct ev as [e store]. simpl.
  intros Hev Hoff. split.
  - assert (Hdis : forall isDoc,
               _isPrefHintsEnabled isDoc (showCodeHints store)
                                   (prefHints store) = false).
    { intros isDoc. unfold _isPrefHintsEnabled.
      destruct Hoff as [-> | ->]; simpl;
        [now rewrite andb_false_r | now rewrite andb_false_r]. }
    destruct Hev as [-> | [-> | [editor ->]]]; simpl; apply Hdis.
  - now intros ->.
Qed.

Lemma flags_switched_off_witness :
  isPrefHintsEnabled
    (handleEvent (mkModule true true [])
                 (ActiveEditorChange None, mkStore (Some false) None))
  = false.
Proof.
  apply (flags_switched_off (mkModule true true [])
           (ActiveEditorChange None, mkStore (Some false) None)).
  - right. right. exists None. reflexivity.
  - left. reflexivity.
Defined.

(* ================================================================= *)
(** ** Further properties of hasHints and getHints *)

Section Protocol.

Variable getContextInfo : Editor -> Pos -> bool -> bool -> option ContextInfo.
Variable stripQuotes : string -> string.
Variable regexAllowedChars : string -> bool.
Variable stringMatch :
  HintValue -> string -> MatcherOptions -> option SearchResult.
Variable basicMatchSort : list SearchResult -> list SearchResult.
Variable getProviderIDsForLanguage : string -> list string.
Variable getAllThemes : list Theme.
Variable languages : JsObject Language.
Variable data : JsObject Preference.

(** X5: [hasHints] answers [true] exactly when the hints are enabled, the
    mode at the selection is JSON, and the context exists, has a token
    type and is not a key context under a blacklisted parent key. *)
Theorem hasHints_true_iff enabled this ed :
  fst (hasHints getContextInfo enabled this ed) = true <->
  enabled = true
  /\ getModeForSelection ed = "application/json"
  /\ exists c kind,
      getContextInfo ed (getCursorPos ed) true false = Some c
      /\ tokenType c = Some kind
      /\ (kind = TOKEN_KEY -> ~ In (parentKeyName c) parentKeyBlacklist).
Proof.
  unfold hasHints. split.
  - destruct enabled; [|simpl; discriminate]. rewrite andb_true_l.
    destruct (String.eqb_spec (getModeForSelection ed) "application/json")
      as [Hmode|]; [|discriminate].
    destruct (getContextInfo ed (getCursorPos ed) true false) as [c|];
      [|simpl; discriminate].
    destruct (tokenType c) as [kind|] eqn:Hkind; [|simpl; discriminate].
    destruct (TokenKind_eqb kind TOKEN_KEY
              && includes parentKeyBlacklist (parentKeyName c)) eqn:Hbl;
      [simpl; discriminate|].
    intros _. repeat split; auto. exists c, kind. repeat split; auto.
    intros -> Hin. apply includes_In in Hin. rewrite Hin in Hbl.
    discriminate Hbl.
  - intros [-> [Hmode [c [kind [Hc [Hkind Hkey]]]]]].
    rewrite Hmode, Hc, Hkind.
    assert (Hbl : TokenKind_eqb kind TOKEN_KEY
                  && includes parentKeyBlacklist (parentKeyName c) = false).
    { destruct kind; [|reflexivity].
      destruct (includes parentKeyBlacklist (parentKeyName c)) eqn:Hin;
        [|reflexivity].
      apply includes_In in Hin. now destruct (Hkey eq_refl). }
    rewrite Hbl. reflexivity.
Qed.

(** [getHints] reads [this.editor] only. *)
Lemma getHints_reads_editor this1 this2 :
  editor this1 = editor this2 ->
  getHints getContextInfo stripQuotes regexAllowedChars stringMatch
           basicMatchSort getProviderIDsForLanguage getAllThemes languages
           data this1
  = getHints getContextInfo stripQuotes regexAllowedChars stringMatch
             basicMatchSort getProviderIDsForLanguage getAllThemes languages
             data this2.
Proof. intros H. unfold getHints. now rewrite H. Qed.

(** [getHints] leaves [this.editor] as it is and caches the context. *)
Lemma getHints_provider this r this' :
  getHints getContextInfo stripQuotes regexAllowedChars stringMatch
           basicMatchSort getProviderIDsForLanguage getAllThemes languages
           data this
  = Ok (r, this') ->
  exists ed,
    editor this = Some ed
    /\ this' = mkProvider (Some ed)
                          (getContextInfo ed (getCursorPos ed) true false).
Proof.
  unfold getHints. destruct (editor this) as [ed|]; [|discriminate].
  intros Hrun. exists ed. split; [reflexivity|].
  destruct (getContextInfo ed (getCursorPos ed) true false) as [c|];
    [|now inversion Hrun].
  destruct (tokenType c) as [[|]|];
    [| destruct (getHints_values _ _ _ _ c) |]; now inversion Hrun.
Qed.


(** X7: asked again with nothing changed in between, [getHints] gives the
    same answer and leaves the provider as it is. *)
Theorem getHints_again this r this' :
  getHints getContextInfo stripQuotes regexAllowedChars stringMatch
           basicMatchSort getProviderIDsForLanguage getAllThemes languages
           data this
  = Ok (r, this') ->
  getHints getContextInfo stripQuotes regexAllowedChars stringMatch
           basicMatchSort getProviderIDsForLanguage getAllThemes languages
           data this'
  = Ok (r, this').
Proof.
  intros Hrun. destruct (getHints_provider _ _ _ Hrun) as [ed [Hed Hthis]].
  rewrite <- Hrun. apply getHints_reads_editor. subst this'. simpl.
  now rewrite Hed.
Qed.


End Protocol.

Lemma hasHints_true_iff_witness :
  fst (hasHints (contextAlways (keyContext "closeTags" []))
                true (mkProvider None None) quotedKeyEditor)
  = true.
Proof.
  apply (hasHints_true_iff (contextAlways (keyContext "closeTags" []))
           true (mkProvider None None) quotedKeyEditor).
  split; [reflexivity|]. split; [reflexivity|].
  exists (keyContext "closeTags" []), TOKEN_KEY.
  repeat split. simpl. intuition discriminate.
Defined.


Lemma getHints_again_witness :
  hints_of
    (getHints (contextAlways (keyContext "closeTags" ["whenOpening"]))
              stripLeadingQuote blankToken prefixMatch keepOrder twoProviders
              noThemes oneLanguage sampleData
              (mkProvider (Some quotedKeyEditor)
                          (Some (keyContext "closeTags" ["whenOpening"]))))
  = [mkHint [mkRange "whenClosing" false] (Some "boolean") None].
Proof.
  rewrite (getHints_again
             (contextAlways (keyContext "closeTags" ["whenOpening"]))
             stripLeadingQuote blankToken prefixMatch keepOrder twoProviders
             noThemes oneLanguage sampleData
             (mkProvider (Some quotedKeyEditor) None)
             (Some (mkResponse
                      [mkHint [mkRange "whenClosing" false] (Some "boolean")
                              None] true false))
             (mkProvider (Some quotedKeyEditor)
                         (Some (keyContext "closeTags" ["whenOpening"])))
             eq_refl).
  reflexivity.
Defined.


(* ================================================================= *)
(** ** The candidates getHints offers *)

Lemma get_In {A} (o : JsObject A) (k : string) (v : A) :
  get o k = Some v -> exists k', In (k', v) o.
Proof.
  induction o as [|[k0 v0] o IH]; simpl; [discriminate|].
  destruct (k0 =? k)%string.
  - intros H. inversion H; subst. exists k0. now left.
  - intros H. destruct (IH H) as [k' Hin]. exists k'. now right.
Qed.

Lemma key_get {A} (o : JsObject A) (k : string) :
  In k (Object_keys o) -> exists v, get o k = Some v.
Proof.
  induction o as [|[k0 v0] o IH]; simpl; [contradiction|].
  intros [<-|Hin].
  - rewrite String.eqb_refl. now exists v0.
  - destruct (k0 =? k)%string; [now exists v0 | now apply IH].
Qed.

Lemma get_map_values {A B} (f : A -> B) (o : JsObject A) (k : string) :
  get (map (fun kv => (fst kv, f (snd kv))) o) k = option_map f (get o k).
Proof.
  induction o as [|[k0 v0] o IH]; simpl; [reflexivity|].
  now destruct (k0 =? k)%string.
Qed.

Lemma Object_keys_map_values {A B} (f : A -> B) (o : JsObject A) :
  Object_keys (map (fun kv => (fst kv, f (snd kv))) o) = Object_keys o.
Proof.
  unfold Object_keys. rewrite map_map. now apply map_ext.
Qed.

Lemma get_keysOfLanguages (ls : JsObject Language) (k : string) :
  get (keysOfLanguages ls) k
  = option_map (fun l => mkKeyInfo (lang_type l) (lang_description l))
               (get ls k).
Proof.
  exact (get_map_values
           (fun l => mkKeyInfo (lang_type l) (lang_description l)) ls k).
Qed.

Lemma Object_keys_keysOfLanguages (ls : JsObject Language) :
  Object_keys (keysOfLanguages ls) = Object_keys ls.
Proof.
  exact (Object_keys_map_values
           (fun l => mkKeyInfo (lang_type l) (lang_description l)) ls).
Qed.

(** The text of the spans of a match. *)
Lemma hintText_spans spans ty desc :
  hintText (mkHint spans ty desc)
  = String.concat EmptyString (map text spans).
Proof. reflexivity. Qed.

Section Candidates.

Variable getContextInfo : Editor -> Pos -> bool -> bool -> option ContextInfo.
Variable stripQuotes : string -> string.
Variable regexAllowedChars : string -> bool.
Variable stringMatch :
  HintValue -> string -> MatcherOptions -> option SearchResult.
Variable basicMatchSort : list SearchResult -> list SearchResult.
Variable getProviderIDsForLanguage : string -> list string.
Variable getAllThemes : list Theme.
Variable languages : JsObject Language.
Variable data : JsObject Preference.

(** What [formatHints] makes of the matches: as many hints, each with the
    spans of one of them, and its type as soon as one match has a type or
    a description. *)
Lemma In_formatHints_meta hs query h :
  SortPermutes basicMatchSort ->
  In h (formatHints basicMatchSort hs query) ->
  exists t,
    In t hs
    /\ hintObj h = hintSpans t
    /\ hintType h
       = (if existsb (fun t => truthy (match_type t)
                               || truthy (match_description t)) hs
          then match_type t else None)
    /\ hintDescription h
       = (if existsb (fun t => truthy (match_type t)
                               || truthy (match_description t)) hs
             && truthy (match_description t)
          then match_description t else None).
Proof.
  intros Hsort Hin. unfold formatHints in Hin.
  apply in_map_iff in Hin. destruct Hin as [t [<- Ht]].
  exists t. repeat split. now apply (Permutation_in _ (Hsort hs)).
Qed.

(** X9: [formatHints] returns as many hints as it is given matches; when
    no match has a type or a description no hint carries either, and
    otherwise every hint carries the type of the match it shows. *)
Theorem formatHints_metadata hs query :
  SortPermutes basicMatchSort ->
  List.length (formatHints basicMatchSort hs query) = List.length hs
  /\ ((forall t, In t hs ->
                 truthy (match_type t) = false
                 /\ truthy (match_description t) = false) ->
      forall h, In h (formatHints basicMatchSort hs query) ->
                hintType h = None /\ hintDescription h = None)
  /\ (forall t0, In t0 hs ->
                 truthy (match_type t0) = true
                 \/ truthy (match_description t0) = true ->
      forall h, In h (formatHints basicMatchSort hs query) ->
                exists t, In t hs /\ hintObj h = hintSpans t
                          /\ hintType h = match_type t).
Proof.
  intros Hsort. split; [|split].
  - unfold formatHints. rewrite length_map.
    apply Permutation_length, Hsort.
  - intros Hnone h Hin.
    destruct (In_formatHints_meta _ _ _ Hsort Hin) as [t [Ht [_ [Hty Hd]]]].
    assert (Hex : existsb (fun t => truthy (match_type t)
                                    || truthy (match_description t)) hs
                  = false).
    { clear - Hnone. induction hs as [|t hs IH]; simpl; [reflexivity|].
      destruct (Hnone t (or_introl eq_refl)) as [-> ->]. simpl.
      apply IH. intros t' Ht'. apply Hnone. now right. }
    rewrite Hex in Hty, Hd. now split.
  - intros t0 Ht0 Hmeta h Hin.
    destruct (In_formatHints_meta _ _ _ Hsort Hin) as [t [Ht [Hobj [Hty _]]]].
    assert (Hex : existsb (fun t => truthy (match_type t)
                                    || truthy (match_description t)) hs
                  = true).
    { apply existsb_exists. exists t0. split; [exact Ht0|].
      destruct Hmeta as [-> | ->]; [reflexivity | apply orb_true_r]. }
    rewrite Hex in Hty. now exists t.
Qed.

(** In a key context [getHints] answers with the matches of the keys,
    formatted. *)
Lemma getHints_key_response this ed c :
  editor this = Some ed ->
  getContextInfo ed (getCursorPos ed) true false = Some c ->
  tokenType c = Some TOKEN_KEY ->
  getHints getContextInfo stripQuotes regexAllowedChars stringMatch
           basicMatchSort getProviderIDsForLanguage getAllThemes languages
           data this
  = Ok (Some (mkResponse
                (formatHints basicMatchSort
                   (getHints_keyHints stringMatch languages data c
                      (getHints_query stripQuotes regexAllowedChars c))
                   (getHints_query stripQuotes regexAllowedChars c))
                true false),
        mkProvider (Some ed) (Some c)).
Proof.
  intros Hed Hc Hkey. unfold getHints. now rewrite Hed, Hc, Hkey.
Qed.

(** The texts of the key hints before sorting, for a list of keys of the
    key set. *)
Lemma keyHints_texts (c : ContextInfo) (query : string)
      (ks : JsObject KeyInfo) (optionType : JsString) (l : list string) :
  MatcherSpells stringMatch ->
  MatcherAccepts stringMatch query ->
  (forall k, In k l -> In k (Object_keys ks)) ->
  map (fun t => String.concat EmptyString (map text (hintSpans t)))
      (jq_map (fun key =>
                 if negb (includes (exclusionList c) key) then
                   match stringMatch (VStr key) query stringMatcherOptions,
                         get ks key with
                   | Some m, Some info =>
                       Some (withMeta m (js_or (ktype info) optionType)
                                        (js_or (kdescription info) None))
                   | _, _ => None
                   end
                 else None) l)
  = filter (fun k => negb (includes (exclusionList c) k)) l.
Proof.
  intros Hspell Hacc. induction l as [|k l IH]; intros Hsub; [reflexivity|].
  simpl. destruct (negb (includes (exclusionList c) k)).
  - destruct (stringMatch (VStr k) query stringMatcherOptions) as [m|] eqn:Hm;
      [|now destruct (Hacc (VStr k))].
    destruct (key_get ks k (Hsub k (or_introl eq_refl))) as [info ->].
    simpl. rewrite hintSpans_withMeta, (Hspell _ _ _ _ Hm). simpl.
    f_equal. apply IH. intros k' Hk'. apply Hsub. now right.
  - apply IH. intros k' Hk'. apply Hsub. now right.
Qed.

(** X10: in a key context, when the matcher accepts every key for the
    query, the texts of the hints [getHints] returns are, up to the order
    the sort gives them, exactly the keys of the key set that are not in
    the exclusion list: no such key is left out and none is added. The
    parent key is an own name, so that [data[parentKeyName]] is the entry
    of the registry or undefined. *)
Theorem getHints_key_hints_complete this ed c :
  MatcherSpells stringMatch ->
  SortPermutes basicMatchSort ->
  MatcherAccepts stringMatch (getHints_query stripQuotes regexAllowedChars c) ->
  editor this = Some ed ->
  getContextInfo ed (getCursorPos ed) true false = Some c ->
  tokenType c = Some TOKEN_KEY ->
  ~ In (parentKeyName c) objectPrototypeNames ->
  Permutation
    (map hintText
         (hints_of
            (getHints getContextInfo stripQuotes regexAllowedChars stringMatch
                      basicMatchSort getProviderIDsForLanguage getAllThemes
                      languages data this)))
    (filter (fun k => negb (includes (exclusionList c) k))
            (Object_keys (fst (getHints_keys languages data c)))).
Proof.
  intros Hspell Hsort Hacc Hed Hc Hkey _.
  rewrite (getHints_key_response _ _ _ Hed Hc Hkey). simpl hints_of.
  unfold formatHints. rewrite map_map. simpl.
  unfold getHints_keyHints.
  destruct (getHints_keys languages data c) as [ks optionType]. simpl fst.
  rewrite <- (keyHints_texts c _ ks optionType (Object_keys ks)
                Hspell Hacc (fun k H => H)).
  apply Permutation_map, Hsort.
Qed.

(** X11: in a value context, with a matcher whose spans spell the
    candidate and a sort that only rearranges, every hint [getHints]
    returns shows one of the values resolved for the key. *)
Theorem getHints_value_hints_sound this ed c vs :
  MatcherSpells stringMatch ->
  SortPermutes basicMatchSort ->
  editor this = Some ed ->
  getContextInfo ed (getCursorPos ed) true false = Some c ->
  tokenType c = Some TOKEN_VALUE ->
  getHints_values getProviderIDsForLanguage getAllThemes languages data c
  = Some vs ->
  forall h,
    In h (hints_of
            (getHints getContextInfo stripQuotes regexAllowedChars stringMatch
                      basicMatchSort getProviderIDsForLanguage getAllThemes
                      languages data this)) ->
    In (hintText h) (map toString vs)
    /\ (hintType h = None
        \/ hintType h = js_or (valueType (getHints_option data c))
                              (type (getHints_option data c))).
Proof.
  intros Hspell Hsort Hed Hc Hval Hvs h Hin.
  rewrite (getHints_value_response _ _ _ _ _ _ _ _ _ _ _ _ _ Hed Hc Hval Hvs)
    in Hin.
  simpl in Hin.
  destruct (In_formatHints_meta _ _ _ Hsort Hin) as [t [Ht [Hobj [Hty _]]]].
  unfold getHints_valueHints in Ht. apply In_jq_map in Ht.
  destruct Ht as [v [Hv Hsome]].
  destruct (stringMatch v _ stringMatcherOptions) as [m|] eqn:Hm;
    [|discriminate].
  inversion Hsome; subst t; clear Hsome. split.
  - unfold hintText. rewrite Hobj, hintSpans_withMeta, (Hspell _ _ _ _ Hm).
    now apply in_map.
  - rewrite Hty. destruct (existsb _ _); [now right | now left].
Qed.

End Candidates.

Section ValueSources.

Variable getContextInfo : Editor -> Pos -> bool -> bool -> option ContextInfo.
Variable stripQuotes : string -> string.
Variable regexAllowedChars : string -> bool.
Variable stringMatch :
  HintValue -> string -> MatcherOptions -> option SearchResult.
Variable basicMatchSort : list SearchResult -> list SearchResult.
Variable getProviderIDsForLanguage : string -> list string.
Variable getAllThemes : list Theme.
Variable languages : JsObject Language.
Variable data : JsObject Preference.

Lemma stringify_strings (o : PrefOption) (l : list string) :
  getHints_stringify o (map VStr l) = map VStr l.
Proof.
  unfold getHints_stringify.
  destruct (is_str (type o) "number" || is_str (valueType o) "number");
    [|reflexivity].
  rewrite map_map. now apply map_ext.
Qed.

(** X12: for an option of type [number] that declares [values], all of
    them strings or integers up to [Number.MAX_SAFE_INTEGER] in magnitude,
    the values handed to the matcher are these values converted to
    strings, the integers in their decimal writing, in their order, in and
    outside of arrays. *)
Theorem getHints_number_values c vs :
  type (getHints_option data c) = Some "number" ->
  values (getHints_option data c) = Some vs ->
  Forall safeInteger vs ->
  getHints_values getProviderIDsForLanguage getAllThemes languages data c
  = Some (map (fun v => VStr (toString v)) vs).
Proof.
  intros Hty Hvs _.
  unfold getHints_values, getHints_rawValues, allowedValuesApply,
    getHints_stringify.
  now rewrite Hty, Hvs.
Qed.

(** X13: for an option of type [string] whose value type is not [number]
    and that declares [values], the values handed to the matcher are these
    values as they are. *)
Theorem getHints_string_values c vs :
  type (getHints_option data c) = Some "string" ->
  valueType (getHints_option data c) <> Some "number" ->
  values (getHints_option data c) = Some vs ->
  getHints_values getProviderIDsForLanguage getAllThemes languages data c
  = Some vs.
Proof.
  intros Hty Hvt Hvs.
  unfold getHints_values, getHints_rawValues, allowedValuesApply,
    getHints_stringify.
  rewrite Hty, Hvs. simpl.
  destruct (valueType (getHints_option data c)) as [s|]; [|reflexivity].
  simpl. destruct (String.eqb_spec s "number"); [congruence | reflexivity].
Qed.

(** X14: the values an option of type [array] declares are offered inside
    an array only: outside of one, and when the key is not the theme key
    and the parent key is none of the two file maps, [getHints] returns
    [null]. *)
Theorem getHints_array_values_outside_array this ed c :
  editor this = Some ed ->
  getContextInfo ed (getCursorPos ed) true false = Some c ->
  tokenType c = Some TOKEN_VALUE ->
  type (getHints_option data c) = Some "array" ->
  isArray c = false ->
  keyName c <> "themes.theme" ->
  parentKeyName c <> "language.fileExtensions" ->
  parentKeyName c <> "language.fileNames" ->
  getHints getContextInfo stripQuotes regexAllowedChars stringMatch
           basicMatchSort getProviderIDsForLanguage getAllThemes languages
           data this
  = Ok (None, mkProvider (Some ed) (Some c)).
Proof.
  intros Hed Hc Hval Hty Harr Htheme Hext Hnames.
  unfold getHints. rewrite Hed, Hc, Hval.
  unfold getHints_values, getHints_rawValues, allowedValuesApply.
  rewrite Hty, Harr. simpl.
  apply String.eqb_neq in Htheme, Hext, Hnames.
  rewrite Htheme, Hext, Hnames.
  now destruct (values (getHints_option data c)).
Qed.

(** X15: for the key [themes.theme], when the option is not of type
    [boolean] and declares no [values], the values handed to the matcher
    are the names of the themes [getAllThemes] lists, in its order. *)
Theorem getHints_theme_values c :
  keyName c = "themes.theme" ->
  type (getHints_option data c) <> Some "boolean" ->
  values (getHints_option data c) = None ->
  getHints_values getProviderIDsForLanguage getAllThemes languages data c
  = Some (map VStr (map name getAllThemes)).
Proof.
  intros Hkey Hbool Hvs.
  unfold getHints_values, getHints_rawValues, allowedValuesApply.
  rewrite Hvs, Hkey.
  assert (Hb : is_str (type (getHints_option data c)) "boolean" = false).
  { destruct (type (getHints_option data c)) as [s|]; simpl; auto.
    apply String.eqb_neq. congruence. }
  rewrite Hb. rewrite andb_false_r. simpl.
  rewrite <- (map_map name VStr). apply f_equal, stringify_strings.
Qed.

(** X16: under the parent keys [language.fileExtensions] and
    [language.fileNames], [hasHints] refuses a key context but accepts a
    value context, and for a key other than the linting and the theme key
    whose option is not of type [boolean] and declares no [values], the
    values handed to the matcher are the identifiers of the languages. *)
Theorem fileMaps_offer_languages this ed c :
  getModeForSelection ed = "application/json" ->
  getContextInfo ed (getCursorPos ed) true false = Some c ->
  parentKeyName c = "language.fileExtensions"
  \/ parentKeyName c = "language.fileNames" ->
  (tokenType c = Some TOKEN_KEY ->
   fst (hasHints getContextInfo true this ed) = false)
  /\ (tokenType c = Some TOKEN_VALUE ->
      fst (hasHints getContextInfo true this ed) = true
      /\ (keyName c <> "linting.prefer" ->
          keyName c <> "themes.theme" ->
          type (getHints_option data c) <> Some "boolean" ->
          values (getHints_option data c) = None ->
          getHints_values getProviderIDsForLanguage getAllThemes languages
                          data c
          = Some (map VStr (Object_keys languages)))).
Proof.
  intros Hmode Hc Hparent.
  assert (Hbl : includes parentKeyBlacklist (parentKeyName c) = true).
  { destruct Hparent as [-> | ->]; reflexivity. }
  split; [|split].
  - intros Hkey. unfold hasHints. now rewrite Hmode, Hc, Hkey, Hbl.
  - unfold hasHints. now rewrite Hmode, Hc, H.
  - intros Hlint Htheme Hbool Hvs.
    unfold getHints_values, getHints_rawValues, allowedValuesApply.
    rewrite Hvs.
    assert (Hb : is_str (type (getHints_option data c)) "boolean" = false).
    { destruct (type (getHints_option data c)) as [s|]; simpl; auto.
      apply String.eqb_neq. congruence. }
    assert (Hp : ((parentKeyName c =? "language.fileExtensions")
                  || (parentKeyName c =? "language.fileNames"))%string
                 = true).
    { destruct Hparent as [-> | ->]; reflexivity. }
    apply String.eqb_neq in Hlint, Htheme.
    rewrite Hb, Hlint, Htheme, Hp, andb_false_r. simpl.
    apply f_equal, stringify_strings.
Qed.

(** X17: in a key context under the parent key [language], when the
    registry's entry [language] has no child keys and the language objects
    carry no type, every hint [getHints] returns shows a language
    identifier and has the type [object]. *)
Theorem getHints_language_keys this ed c :
  MatcherSpells stringMatch ->
  SortPermutes basicMatchSort ->
  editor this = Some ed ->
  getContextInfo ed (getCursorPos ed) true false = Some c ->
  tokenType c = Some TOKEN_KEY ->
  parentKeyName c = "language" ->
  (forall p, get data "language" = Some p -> keys p = None) ->
  (forall k l, In (k, l) languages -> lang_type l = None) ->
  forall h,
    In h (hints_of
            (getHints getContextInfo stripQuotes regexAllowedChars stringMatch
                      basicMatchSort getProviderIDsForLanguage getAllThemes
                      languages data this)) ->
    In (hintText h) (Object_keys languages)
    /\ hintType h = Some "object".
Proof.
  intros Hspell Hsort Hed Hc Hkey Hparent Hnokeys Hlang h Hin.
  rewrite (getHints_key_response _ _ _ _ _ _ _ _ _ _ _ _ Hed Hc Hkey) in Hin.
  simpl in Hin.
  destruct (In_formatHints_meta _ _ _ _ Hsort Hin) as [t [Ht [Hobj [Hty _]]]].
  assert (Hks : getHints_keys languages data c
                = (keysOfLanguages languages, Some "object")).
  { unfold getHints_keys. rewrite Hparent.
    destruct (get data "language") as [p|] eqn:Hp; [|reflexivity].
    now rewrite (Hnokeys p eq_refl). }
  assert (Htype : forall t', In t' (getHints_keyHints stringMatch languages
                                      data c
                                      (getHints_query stripQuotes
                                         regexAllowedChars c)) ->
                  match_type t' = Some "object"
                  /\ In (String.concat EmptyString (map text (hintSpans t')))
                        (Object_keys languages)).
  { intros t' Ht'. unfold getHints_keyHints in Ht'. rewrite Hks in Ht'.
    apply In_jq_map in Ht'. destruct Ht' as [key [Hk Hsome]].
    destruct (negb (includes (exclusionList c) key)); [|discriminate].
    destruct (stringMatch (VStr key) _ stringMatcherOptions) as [m|] eqn:Hm;
      [|discriminate].
    rewrite get_keysOfLanguages in Hsome.
    rewrite Object_keys_keysOfLanguages in Hk.
    destruct (get languages key) as [l|] eqn:Hl; [|discriminate].
    simpl in Hsome. inversion Hsome; subst t'; clear Hsome.
    destruct (get_In _ _ _ Hl) as [k' Hin'].
    rewrite (Hlang k' l Hin'). split; [reflexivity|].
    rewrite hintSpans_withMeta, (Hspell _ _ _ _ Hm). exact Hk. }
  destruct (Htype t Ht) as [Htt Htext]. split.
  - unfold hintText. now rewrite Hobj.
  - rewrite Hty, Htt.
    assert (Hex : existsb (fun t => truthy (match_type t)
                                    || truthy (match_description t))
                          (getHints_keyHints stringMatch languages data c
                             (getHints_query stripQuotes regexAllowedChars c))
                  = true).
    { apply existsb_exists. exists t. split; [exact Ht|]. now rewrite Htt. }
    now rewrite Hex.
Qed.

End ValueSources.

(* ================================================================= *)
(** ** Further properties of insertHint *)

Section InsertMore.

Variable getContextInfo : Editor -> Pos -> bool -> bool -> option ContextInfo.
Variable regexAllowedChars : string -> bool.

(** X18: [insertHint] stops on a [TypeError] exactly when no editor is
    cached or the context service answers [null]; with an editor and a
    context it returns. *)
Theorem insertHint_raises_iff this completion :
  insertHint getContextInfo regexAllowedChars this completion = TypeError
  <-> editor this = None
      \/ exists ed, editor this = Some ed
                    /\ getContextInfo ed (getCursorPos ed) false true = None.
Proof.
  unfold insertHint. split.
  - destruct (editor this) as [ed|]; [|now left].
    destruct (getContextInfo ed (getCursorPos ed) false true) as [c|] eqn:Hc;
      [|intros _; right; exists ed; now split].
    destruct (tokenType c) as [[|]|].
    + destruct (includes_js _ _); [|discriminate].
      destruct (negb _ && negb _); discriminate.
    + destruct (valueSpan regexAllowedChars c (getCursorPos ed));
        discriminate.
    + discriminate.
  - intros [-> | [ed [-> ->]]]; reflexivity.
Qed.

(** The calls of [insertHint], and the line they are on. *)
Lemma insertHint_calls this ed completion ret ops :
  editor this = Some ed ->
  insertHint getContextInfo regexAllowedChars this completion
  = Ok (ret, ops) ->
  Forall (onLine (line (getCursorPos ed))) ops
  /\ (ops = []
      \/ (exists t from to, ops = [ReplaceRange t from to])
      \/ (exists t from to l c,
             ops = [ReplaceRange t from to; SetCursorPos l c])).
Proof.
  intros Hed. unfold insertHint. rewrite Hed.
  destruct (getContextInfo ed (getCursorPos ed) false true) as [c|];
    [|discriminate].
  destruct (tokenType c) as [[|]|].
  - destruct (includes_js _ _).
    + destruct (negb _ && negb _); intros H; inversion H; subst;
        (split; [repeat constructor | right; right; eauto 6]).
    + intros H; inversion H; subst.
      split; [repeat constructor | right; left; eauto].
  - destruct (valueSpan regexAllowedChars c (getCursorPos ed)) as [a b].
    intros H; inversion H; subst.
    split; [repeat constructor | right; left; eauto].
  - intros H; inversion H; subst. split; [constructor | now left].
Qed.

(** X19: [insertHint] calls [replaceRange] at most once and [setCursorPos]
    at most once after it, and every position it passes is on the line of
    the cursor. *)
Theorem insertHint_stays_on_line this ed completion ret ops :
  editor this = Some ed ->
  insertHint getContextInfo regexAllowedChars this completion
  = Ok (ret, ops) ->
  Forall (onLine (line (getCursorPos ed))) ops
  /\ (ops = []
      \/ (exists t from to, ops = [ReplaceRange t from to])
      \/ (exists t from to l c,
             ops = [ReplaceRange t from to; SetCursorPos l c])).
Proof. apply insertHint_calls. Qed.

(** X21: accepting a value always returns [false] after one call of
    [replaceRange]. A hint with a type other than [string] is inserted as
    it is; an untyped or [string] hint is put between two copies of one
    quote, the one the token starts with if it starts with a quote and the
    double quote otherwise. *)
Theorem insertHint_value_text this ed c completion :
  editor this = Some ed ->
  getContextInfo ed (getCursorPos ed) false true = Some c ->
  tokenType c = Some TOKEN_VALUE ->
  exists newText from to,
    insertHint getContextInfo regexAllowedChars this completion
    = Ok (Some false, [ReplaceRange newText from to])
    /\ (truthy (completionType completion) = true ->
        completionType completion <> Some "string" ->
        newText = completionText completion)
    /\ (truthy (completionType completion) = false
        \/ completionType completion = Some "string" ->
        exists q,
          (q = "'" \/ q = dquote)
          /\ newText = q ++ completionText completion ++ q
          /\ (isQuoteChar (charAt0 (tstring (token c))) = true ->
              q = charAt0 (tstring (token c)))
          /\ (isQuoteChar (charAt0 (tstring (token c))) = false ->
              q = dquote)).
Proof.
  intros Hed Hc Hval. unfold insertHint. rewrite Hed, Hc, Hval.
  destruct (valueSpan regexAllowedChars c (getCursorPos ed)) as [a b].
  do 3 eexists. split; [reflexivity|]. unfold valueCompletion. split.
  - intros Htruthy Hstr. rewrite Htruthy. simpl.
    destruct (completionType completion) as [s|]; [|discriminate].
    simpl. destruct (String.eqb_spec s "string"); [congruence | reflexivity].
  - intros Hquote.
    assert (Hcond : negb (truthy (completionType completion))
                    || is_str (completionType completion) "string" = true).
    { destruct Hquote as [-> | ->]; [reflexivity | apply orb_true_r]. }
    rewrite Hcond. exists (valueQuoteChar c). unfold valueQuoteChar.
    destruct (isQuoteChar (charAt0 (tstring (token c)))) eqn:Hq.
    + repeat split; try discriminate.
      unfold isQuoteChar in Hq. apply orb_true_iff in Hq.
      destruct Hq as [Hq|Hq]; apply String.eqb_eq in Hq; [now left|now right].
    + repeat split; try discriminate. now right.
Qed.

(** X22: when the token is white space for [regexAllowedChars], the value
    is inserted at the cursor and nothing is replaced, whether or not the
    context asks to replace the token. *)
Theorem insertHint_value_at_cursor this ed c completion :
  editor this = Some ed ->
  getContextInfo ed (getCursorPos ed) false true = Some c ->
  tokenType c = Some TOKEN_VALUE ->
  regexAllowedChars (tstring (token c)) = true ->
  exists newText,
    insertHint getContextInfo regexAllowedChars this completion
    = Ok (Some false,
          [ReplaceRange newText (getCursorPos ed) (getCursorPos ed)])
    /\ forall pre post,
        ch (getCursorPos ed) = Z.of_nat (String.length pre) ->
        replaceInLine (pre ++ post) newText (ch (getCursorPos ed))
                      (ch (getCursorPos ed))
        = pre ++ newText ++ post.
Proof.
  intros Hed Hc Hval Hblank. unfold insertHint. rewrite Hed, Hc, Hval.
  unfold valueSpan. rewrite Hblank.
  eexists. split.
  - destruct (getCursorPos ed) as [l k]. reflexivity.
  - intros pre post Hch. rewrite Hch.
    pose proof (replaceInLine_span pre EmptyString post) as Hspan.
    simpl in Hspan. rewrite Z.add_0_r in Hspan. apply Hspan.
Qed.

(** X23: accepting a key over a token that starts with a quote puts the
    key between two copies of that quote, single or double, and adds the
    colon, the space and the body only when the context does not ask to
    replace the token; on a line that holds the token from the start of
    the range to the end of the token, the token is what is replaced. *)
Theorem insertHint_key_quoted this ed c completion :
  editor this = Some ed ->
  getContextInfo ed (getCursorPos ed) false true = Some c ->
  tokenType c = Some TOKEN_KEY ->
  isQuoteChar (charAt0 (tstring (token c))) = true ->
  let q := charAt0 (tstring (token c)) in
  let newText :=
    (q ++ completionText completion ++ q)
    ++ (if shouldReplace c then EmptyString
        else ": " ++ emptyBody (completionType completion)) in
  exists ret ops,
    insertHint getContextInfo regexAllowedChars this completion
    = Ok (ret,
          ReplaceRange
            newText
            (mkPos (line (getCursorPos ed)) (ch (getCursorPos ed) - offset c))
            (mkPos (line (getCursorPos ed)) (tend (token c)))
          :: ops)
    /\ (q = "'" \/ q = dquote)
    /\ forall pre post,
        ch (getCursorPos ed) - offset c = Z.of_nat (String.length pre) ->
        tend (token c)
        = Z.of_nat (String.length pre)
          + Z.of_nat (String.length (tstring (token c))) ->
        replaceInLine (pre ++ tstring (token c) ++ post) newText
                      (ch (getCursorPos ed) - offset c) (tend (token c))
        = pre ++ newText ++ post.
Proof.
  intros Hed Hc Hkey Hq q newText. unfold insertHint.
  rewrite Hed, Hc, Hkey.
  assert (Htext : keyCompletion c (completionType completion)
                                (completionText completion) = newText).
  { unfold keyCompletion, keyQuoteChar, newText, q. rewrite Hq.
    simpl js_concat_operand.
    destruct (shouldReplace c); simpl negb; cbv iota.
    - generalize (charAt0 (tstring (token c)) ++ completionText completion
                  ++ charAt0 (tstring (token c))).
      intros s. induction s; simpl; congruence.
    - now rewrite string_app_assoc. }
  rewrite Htext.
  assert (Hquote : q = "'" \/ q = dquote).
  { unfold isQuoteChar in Hq. apply orb_true_iff in Hq.
    destruct Hq as [Hq|Hq]; apply String.eqb_eq in Hq; [now left|now right]. }
  assert (Hbuf : forall pre post,
             ch (getCursorPos ed) - offset c
             = Z.of_nat (String.length pre) ->
             tend (token c)
             = Z.of_nat (String.length pre)
               + Z.of_nat (String.length (tstring (token c))) ->
             replaceInLine (pre ++ tstring (token c) ++ post) newText
                           (ch (getCursorPos ed) - offset c) (tend (token c))
             = pre ++ newText ++ post).
  { intros pre post Hstart Hend. rewrite Hstart, Hend.
    apply replaceInLine_span. }
  destruct (includes_js _ _); [|eauto 6].
  destruct (negb _ && negb _); eauto 6.
Qed.

End InsertMore.

(* ================================================================= *)
(** ** From getHints to insertHint *)

Section EndToEnd.

Variable getContextInfo : Editor -> Pos -> bool -> bool -> option ContextInfo.
Variable stripQuotes : string -> string.
Variable regexAllowedChars : string -> bool.
Variable stringMatch :
  HintValue -> string -> MatcherOptions -> option SearchResult.
Variable basicMatchSort : list SearchResult -> list SearchResult.
Variable getProviderIDsForLanguage : string -> list string.
Variable getAllThemes : list Theme.
Variable languages : JsObject Language.
Variable data : JsObject Preference.

Lemma boolean_option_values c :
  type (getHints_option data c) = Some "boolean" ->
  getHints_values getProviderIDsForLanguage getAllThemes languages data c
  = Some [VStr "false"; VStr "true"].
Proof.
  intros Hbool. unfold getHints_values, getHints_rawValues, getHints_stringify.
  rewrite Hbool. simpl.
  now destruct (is_str (valueType (getHints_option data c)) "number").
Qed.

(** X24: a hint [getHints] offers for a boolean option without a value
    type, accepted in a value context, is inserted as the bare word
    [false] or [true], without quotes, and ends the session. *)
Theorem boolean_hint_inserted_bare this ed c c' h :
  MatcherSpells stringMatch ->
  SortPermutes basicMatchSort ->
  editor this = Some ed ->
  getContextInfo ed (getCursorPos ed) true false = Some c ->
  tokenType c = Some TOKEN_VALUE ->
  type (getHints_option data c) = Some "boolean" ->
  truthy (valueType (getHints_option data c)) = false ->
  In h (hints_of
          (getHints getContextInfo stripQuotes regexAllowedChars stringMatch
                    basicMatchSort getProviderIDsForLanguage getAllThemes
                    languages data this)) ->
  getContextInfo ed (getCursorPos ed) false true = Some c' ->
  tokenType c' = Some TOKEN_VALUE ->
  exists newText from to,
    insertHint getContextInfo regexAllowedChars this (CJQuery h)
    = Ok (Some false, [ReplaceRange newText from to])
    /\ (newText = "false" \/ newText = "true").
Proof.
  intros Hspell Hsort Hed Hc Hval Hbool Hvt Hin Hc' Hval'.
  rewrite (getHints_value_response _ _ _ _ _ _ _ _ _ _ _ _ _ Hed Hc Hval
             (boolean_option_values c Hbool)) in Hin.
  simpl in Hin.
  destruct (In_formatHints_meta _ _ _ _ Hsort Hin) as [t [Ht [Hobj [Hty _]]]].
  assert (Hmeta : match_type t = Some "boolean"
                  /\ In (String.concat EmptyString (map text (hintSpans t)))
                        ["false"; "true"]).
  { unfold getHints_valueHints in Ht. apply In_jq_map in Ht.
    destruct Ht as [v [Hv Hsome]].
    destruct (stringMatch v _ stringMatcherOptions) as [m|] eqn:Hm;
      [|discriminate].
    inversion Hsome; subst t; clear Hsome. simpl. split.
    - unfold js_or. now rewrite Hvt, Hbool.
    - rewrite hintSpans_withMeta, (Hspell _ _ _ _ Hm).
      destruct Hv as [<- | [<- | []]]; simpl; auto. }
  destruct Hmeta as [Htt Htext].
  assert (Hex : existsb (fun t => truthy (match_type t)
                                  || truthy (match_description t))
                        (getHints_valueHints stringMatch
                           (getHints_option data c)
                           [VStr "false"; VStr "true"]
                           (getHints_query stripQuotes regexAllowedChars c))
                = true).
  { apply existsb_exists. exists t. split; [exact Ht|]. now rewrite Htt. }
  rewrite Hex, Htt in Hty.
  unfold insertHint. rewrite Hed, Hc', Hval'.
  destruct (valueSpan regexAllowedChars c' (getCursorPos ed)) as [a b].
  do 3 eexists. split; [reflexivity|].
  unfold valueCompletion. simpl completionType. rewrite Hty. simpl.
  unfold hintText. rewrite Hobj.
  destruct Htext as [<- | [<- | []]]; auto.
Qed.

End EndToEnd.

(* ================================================================= *)
(** ** The gutters *)

Lemma widerOf_fold_ge (l : list (option Z)) (m : Z) :
  m <= fold_left widerOf l m.
Proof.
  revert m. induction l as [|w l IH]; intros m; simpl; [lia|].
  specialize (IH (widerOf m w)). unfold widerOf in *.
  destruct w as [w|]; [|exact IH].
  destruct (Z.ltb_spec m w); lia.
Qed.

Lemma widerOf_fold_bound (l : list (option Z)) (m w : Z) :
  In (Some w) l -> w <= fold_left widerOf l m.
Proof.
  revert m. induction l as [|x l IH]; intros m; simpl; [contradiction|].
  intros [-> | Hin]; [|now apply IH].
  pose proof (widerOf_fold_ge l (widerOf m (Some w))) as Hge.
  unfold widerOf in *. destruct (Z.ltb_spec m w); lia.
Qed.

Lemma widerOf_fold_attained (l : list (option Z)) (m : Z) :
  fold_left widerOf l m = m \/ In (Some (fold_left widerOf l m)) l.
Proof.
  revert m. induction l as [|x l IH]; intros m; simpl; [now left|].
  destruct (IH (widerOf m x)) as [Heq | Hin]; [|right; now right].
  rewrite Heq. unfold widerOf. destruct x as [w|]; [|now left].
  destruct (m <? w); [right; now left | now left].
Qed.

(** X25: with at least one inline editor, [_syncGutterWidths] leaves every
    gutter, the host's included, with the same [min-width]: the widest of
    the widths read, or 0 when no width is positive. With the host alone
    the [min-width] stays cleared. *)
Theorem syncGutterWidths_widest (inlineEditors : list (option Z))
        (hostEditor : option Z) :
  (inlineEditors = [] ->
   _syncGutterWidths inlineEditors hostEditor = [EmptyString])
  /\ (inlineEditors <> [] ->
      exists widest,
        0 <= widest
        /\ (forall w, In (Some w) (inlineEditors ++ [hostEditor])%list ->
                      w <= widest)
        /\ (widest = 0
            \/ In (Some widest) (inlineEditors ++ [hostEditor])%list)
        /\ _syncGutterWidths inlineEditors hostEditor
           = repeat (toString (VNum widest) ++ "px")
                    (S (List.length inlineEditors))).
Proof.
  split.
  - intros ->. reflexivity.
  - intros Hne. unfold _syncGutterWidths.
    exists (fold_left widerOf (inlineEditors ++ [hostEditor])%list 0).
    split; [apply widerOf_fold_ge|].
    split; [intros w Hw; now apply widerOf_fold_bound|].
    split; [apply widerOf_fold_attained|].
    assert (Hlen : List.length (inlineEditors ++ [hostEditor])
                   = S (List.length inlineEditors)).
    { rewrite length_app. simpl. lia. }
    rewrite Hlen.
    destruct inlineEditors as [|e es]; [contradiction|]. simpl Nat.eqb.
    cbv iota. rewrite <- Hlen.
    generalize (toString
                  (VNum (fold_left widerOf ((e :: es) ++ [hostEditor])%list 0))
                ++ "px").
    intros s. generalize ((e :: es) ++ [hostEditor])%list. intros l.
    induction l; simpl; congruence.
Qed.

Lemma syncGutterWidths_widest_witness :
  _syncGutterWidths [Some 28; None; Some 36] (Some 31)
  = ["36px"; "36px"; "36px"; "36px"].
Proof.
  destruct (syncGutterWidths_widest [Some 28; None; Some 36] (Some 31))
    as [_ Hmany].
  destruct Hmany as [widest [_ [Hbound [Hwidest Hrun]]]]; [discriminate|].
  assert (Heq : widest = 36).
  { pose proof (Hbound 36 (or_intror (or_intror (or_introl eq_refl)))).
    destruct Hwidest as [-> | [H0 | [H0 | [H0 | [H0 | []]]]]];
      try lia; inversion H0; lia. }
  rewrite Heq in Hrun. exact Hrun.
Defined.

(* ================================================================= *)
(** ** The further properties at concrete inputs *)

Lemma anyMatch_spells : MatcherSpells anyMatch.
Proof.
  intros v query options m Hm. inversion Hm; subst m. simpl.
  generalize (toString v). intros s. induction s; simpl; congruence.
Qed.

Lemma anyMatch_accepts query : MatcherAccepts anyMatch query.
Proof. intros v. discriminate. Qed.

Lemma formatHints_metadata_witness :
  List.length (formatHints keepOrder plainMatches EmptyString) = 2%nat
  /\ forall h, In h (formatHints keepOrder plainMatches EmptyString) ->
               hintType h = None /\ hintDescription h = None.
Proof.
  destruct (formatHints_metadata keepOrder plainMatches EmptyString
              keepOrder_permutes) as [Hlen [Hnone _]].
  split; [exact Hlen|]. apply Hnone.
  intros t [<- | [<- | []]]; split; reflexivity.
Defined.

Lemma getHints_key_hints_complete_witness :
  Permutation
    (map hintText
         (hints_of
            (getHints (contextAlways (keyContext "closeTags" ["whenOpening"]))
                      stripLeadingQuote blankToken anyMatch keepOrder
                      twoProviders noThemes oneLanguage sampleData
                      (mkProvider (Some quotedKeyEditor) None))))
    ["whenClosing"].
Proof.
  apply (getHints_key_hints_complete
           (contextAlways (keyContext "closeTags" ["whenOpening"]))
           stripLeadingQuote blankToken anyMatch keepOrder twoProviders
           noThemes oneLanguage sampleData
           (mkProvider (Some quotedKeyEditor) None) quotedKeyEditor
           (keyContext "closeTags" ["whenOpening"])
           anyMatch_spells keepOrder_permutes (anyMatch_accepts _)
           eq_refl eq_refl eq_refl).
  simpl. intuition discriminate.
Defined.

Lemma getHints_value_hints_sound_witness :
  In "false" ["false"; "true"]
  /\ (Some "boolean" = None \/ Some "boolean" = Some "boolean").
Proof.
  apply (getHints_value_hints_sound
           (contextAlways (valueContext EmptyString "closeBrackets" false []))
           stripLeadingQuote blankToken prefixMatch keepOrder twoProviders
           noThemes oneLanguage sampleData
           (mkProvider (Some quotedKeyEditor) None) quotedKeyEditor
           (valueContext EmptyString "closeBrackets" false [])
           [VStr "false"; VStr "true"]
           prefixMatch_spells keepOrder_permutes eq_refl eq_refl eq_refl
           eq_refl
           (mkHint [mkRange "false" false] (Some "boolean")
                   (Some "Close brackets"))).
  left. reflexivity.
Defined.

Lemma getHints_number_values_witness :
  getHints_values twoProviders noThemes oneLanguage sampleDataValues
                  (valueContext EmptyString "tabSize" false [])
  = Some [VStr "2"; VStr "4"; VStr "8"].
Proof.
  apply (getHints_number_values twoProviders noThemes oneLanguage
           sampleDataValues (valueContext EmptyString "tabSize" false [])
           [VNum 2; VNum 4; VNum 8]);
    try reflexivity.
  repeat constructor; simpl; lia.
Defined.

Lemma getHints_string_values_witness :
  getHints_values twoProviders noThemes oneLanguage sampleDataValues
                  (valueContext EmptyString "lineEndings" false [])
  = Some [VStr "LF"; VStr "CRLF"].
Proof.
  apply (getHints_string_values twoProviders noThemes oneLanguage
           sampleDataValues (valueContext EmptyString "lineEndings" false []));
    [reflexivity | discriminate | reflexivity].
Defined.

Lemma getHints_array_values_outside_array_witness :
  getHints (contextAlways (valueContext EmptyString "hidden.folders" false []))
           stripLeadingQuote blankToken prefixMatch keepOrder twoProviders
           noThemes oneLanguage sampleDataValues
           (mkProvider (Some quotedKeyEditor) None)
  = Ok (None,
        mkProvider (Some quotedKeyEditor)
                   (Some (valueContext EmptyString "hidden.folders" false []))).
Proof.
  apply (getHints_array_values_outside_array
           (contextAlways (valueContext EmptyString "hidden.folders" false []))
           stripLeadingQuote blankToken prefixMatch keepOrder twoProviders
           noThemes oneLanguage sampleDataValues
           (mkProvider (Some quotedKeyEditor) None) quotedKeyEditor
           (valueContext EmptyString "hidden.folders" false []));
    try reflexivity; discriminate.
Defined.

Lemma getHints_theme_values_witness :
  getHints_values twoProviders twoThemes oneLanguage sampleData
                  (valueContext EmptyString "themes.theme" false [])
  = Some [VStr "light-theme"; VStr "dark-theme"].
Proof.
  apply (getHints_theme_values twoProviders twoThemes oneLanguage sampleData
           (valueContext EmptyString "themes.theme" false []));
    [reflexivity | discriminate | reflexivity].
Defined.

Lemma fileMaps_offer_languages_witness :
  fst (hasHints
         (contextAlways (valueContext "language.fileExtensions" "js" false []))
         true (mkProvider None None) quotedKeyEditor)
  = true
  /\ getHints_values twoProviders noThemes oneLanguage sampleData
                     (valueContext "language.fileExtensions" "js" false [])
     = Some [VStr "javascript"].
Proof.
  destruct (fileMaps_offer_languages
              (contextAlways
                 (valueContext "language.fileExtensions" "js" false []))
              twoProviders noThemes oneLanguage sampleData
              (mkProvider None None) quotedKeyEditor
              (valueContext "language.fileExtensions" "js" false [])
              eq_refl eq_refl (or_introl eq_refl)) as [_ Hvalue].
  destruct (Hvalue eq_refl) as [Hhas Hvalues].
  split; [exact Hhas|].
  apply Hvalues; [discriminate | discriminate | discriminate | reflexivity].
Defined.

Lemma getHints_language_keys_witness :
  In "javascript" (Object_keys oneLanguage)
  /\ Some "object" = Some "object".
Proof.
  apply (getHints_language_keys
           (contextAlways (keyContext "language" []))
           stripLeadingQuote blankToken prefixMatch keepOrder twoProviders
           noThemes oneLanguage (data0 "Language" "Path")
           (mkProvider (Some quotedKeyEditor) None) quotedKeyEditor
           (keyContext "language" [])
           prefixMatch_spells keepOrder_permutes eq_refl eq_refl eq_refl
           eq_refl)
    with (h := mkHint [mkRange "javascript" false] (Some "object") None).
  - intros p Hp. inversion Hp. reflexivity.
  - intros k l [Hin | []]. inversion Hin. reflexivity.
  - left. reflexivity.
Defined.

Lemma insertHint_raises_iff_witness :
  insertHint contextNever blankToken (mkProvider (Some quotedKeyEditor) None)
             (CString "foo")
  = TypeError.
Proof.
  apply (insertHint_raises_iff contextNever blankToken
           (mkProvider (Some quotedKeyEditor) None) (CString "foo")).
  right. exists quotedKeyEditor. split; reflexivity.
Defined.

Lemma insertHint_stays_on_line_witness :
  Forall (onLine 0)
         [ReplaceRange (dquote ++ "foo" ++ dquote ++ ": []")
                       (mkPos 0 0) (mkPos 0 1);
          SetCursorPos 0 8].
Proof.
  apply (insertHint_stays_on_line
           (contextAlways (quotedKeyContext false)) blankToken
           (mkProvider (Some quotedKeyEditor) None) quotedKeyEditor
           (fooHint (Some "array")) (Some true)
           [ReplaceRange (dquote ++ "foo" ++ dquote ++ ": []")
                         (mkPos 0 0) (mkPos 0 1);
            SetCursorPos 0 8]
           eq_refl eq_refl).
Defined.

Lemma insertHint_value_text_witness :
  exists newText from to,
    insertHint (contextAlways quotedValueContext) blankToken
               (mkProvider (Some quotedValueEditor) None) (CString "bar")
    = Ok (Some false, [ReplaceRange newText from to])
    /\ newText = "'bar'".
Proof.
  destruct (insertHint_value_text
              (contextAlways quotedValueContext) blankToken
              (mkProvider (Some quotedValueEditor) None) quotedValueEditor
              quotedValueContext (CString "bar") eq_refl eq_refl eq_refl)
    as [newText [from [to [Hrun [_ Hquoted]]]]].
  exists newText, from, to. split; [exact Hrun|].
  destruct (Hquoted (or_introl eq_refl)) as [q [_ [Htext [Hq _]]]].
  rewrite Htext, (Hq eq_refl). reflexivity.
Defined.

Lemma insertHint_value_at_cursor_witness :
  exists newText,
    insertHint (contextAlways blankValueContext) blankToken
               (mkProvider (Some blankValueEditor) None) (CString "bar")
    = Ok (Some false, [ReplaceRange newText (mkPos 0 1) (mkPos 0 1)])
    /\ replaceInLine " " newText 1 1 = " " ++ newText ++ EmptyString.
Proof.
  destruct (insertHint_value_at_cursor
              (contextAlways blankValueContext) blankToken
              (mkProvider (Some blankValueEditor) None) blankValueEditor
              blankValueContext (CString "bar") eq_refl eq_refl eq_refl
              eq_refl)
    as [newText [Hrun Hbuf]].
  exists newText. split; [exact Hrun|].
  exact (Hbuf " " EmptyString eq_refl).
Defined.

Lemma insertHint_key_quoted_witness :
  exists ret ops,
    insertHint (contextAlways (quotedKeyContext false)) blankToken
               (mkProvider (Some quotedKeyEditor) None)
               (fooHint (Some "object"))
    = Ok (ret,
          ReplaceRange (dquote ++ "foo" ++ dquote ++ ": {}")
                       (mkPos 0 0) (mkPos 0 1)
          :: ops)
    /\ replaceInLine dquote (dquote ++ "foo" ++ dquote ++ ": {}") 0 1
       = dquote ++ "foo" ++ dquote ++ ": {}".
Proof.
  destruct (insertHint_key_quoted
              (contextAlways (quotedKeyContext false)) blankToken
              (mkProvider (Some quotedKeyEditor) None) quotedKeyEditor
              (quotedKeyContext false) (fooHint (Some "object"))
              eq_refl eq_refl eq_refl eq_refl)
    as [ret [ops [Hrun [_ Hbuf]]]].
  exists ret, ops. split; [exact Hrun|].
  exact (Hbuf EmptyString EmptyString eq_refl eq_refl).
Defined.

Lemma boolean_hint_inserted_bare_witness :
  exists newText from to,
    insertHint
      (contextAlways (valueContext EmptyString "closeBrackets" false []))
      blankToken (mkProvider (Some quotedKeyEditor) None)
      (CJQuery (mkHint [mkRange "true" false] (Some "boolean")
                       (Some "Close brackets")))
    = Ok (Some false, [ReplaceRange newText from to])
    /\ (newText = "false" \/ newText = "true").
Proof.
  apply (boolean_hint_inserted_bare
           (contextAlways (valueContext EmptyString "closeBrackets" false []))
           stripLeadingQuote blankToken prefixMatch keepOrder twoProviders
           noThemes oneLanguage sampleData
           (mkProvider (Some quotedKeyEditor) None) quotedKeyEditor
           (valueContext EmptyString "closeBrackets" false [])
           (valueContext EmptyString "closeBrackets" false [])
           (mkHint [mkRange "true" false] (Some "boolean")
                   (Some "Close brackets"))
           prefixMatch_spells keepOrder_permutes eq_refl eq_refl eq_refl
           eq_refl eq_refl);
    try reflexivity.
  right. left. reflexivity.
Defined.

(* ================================================================= *)
(** ** The registry when fields may hold null *)

Lemma extendRawField_idem {A} (t s : JsField A) :
  extendRawField (extendRawField t s) s = extendRawField t s.
Proof. now destruct s. Qed.

Lemma mergedRaw_idem (t : option RawPreference) (p : RawPreference) :
  mergedRaw (Some (mergedRaw t p)) p = mergedRaw t p.
Proof.
  unfold mergedRaw, extendRaw.
  destruct p as [pt pd pv pvt pk pe]; simpl.
  destruct (holdsObject pk) eqn:Hk; simpl; rewrite !extendRawField_idem;
    [|reflexivity].
  now destruct pk.
Qed.

Lemma get_addPreferenceRaw (preferences d : JsObject RawPreference)
      (pref k : string) :
  get (addPreferenceRaw preferences d pref) k =
  if (pref =? k)%string then
    match get preferences pref with
    | Some p =>
        if holdsTrue (raw_excludeFromHints p) then get d k
        else Some (mergedRaw (get d k) p)
    | None => get d k
    end
  else get d k.
Proof.
  unfold addPreferenceRaw, mergedRaw.
  destruct (String.eqb_spec pref k) as [->|Hne].
  - destruct (get preferences k) as [p|]; [|reflexivity].
    destruct (holdsTrue (raw_excludeFromHints p)); [reflexivity|].
    destruct (holdsObject (raw_keys p)); now rewrite get_set_same.
  - destruct (get preferences pref) as [p|]; [|reflexivity].
    destruct (holdsTrue (raw_excludeFromHints p)); [reflexivity|].
    destruct (holdsObject (raw_keys p));
      now rewrite ?get_set_other by assumption.
Qed.

Section RawFold.

Variables preferences d0 : JsObject RawPreference.

Lemma addPreferenceRaw_settling d pref :
  settlingRaw preferences d0 d ->
  settlingRaw preferences d0 (addPreferenceRaw preferences d pref).
Proof.
  intros Hd k. rewrite get_addPreferenceRaw.
  destruct (String.eqb_spec pref k) as [->|]; [|apply Hd].
  pose proof (Hd k) as Hk. unfold registeredRaw in Hk |- *.
  destruct (get preferences k) as [p|]; [|exact Hk].
  destruct (holdsTrue (raw_excludeFromHints p)); [exact Hk|].
  right. destruct Hk as [H|H]; rewrite H; [reflexivity|].
  now rewrite mergedRaw_idem.
Qed.

Lemma addPreferenceRaw_done d pref :
  settlingRaw preferences d0 d ->
  get (addPreferenceRaw preferences d pref) pref
  = registeredRaw preferences d0 pref.
Proof.
  intros Hd. rewrite get_addPreferenceRaw, String.eqb_refl.
  pose proof (Hd pref) as Hk. unfold registeredRaw in Hk |- *.
  destruct (get preferences pref) as [p|].
  - destruct (holdsTrue (raw_excludeFromHints p)).
    + now destruct Hk.
    + destruct Hk as [H|H]; rewrite H; [reflexivity|].
      now rewrite mergedRaw_idem.
  - now destruct Hk.
Qed.

Lemma addPreferenceRaw_stable d pref k :
  get d k = registeredRaw preferences d0 k ->
  get (addPreferenceRaw preferences d pref) k
  = registeredRaw preferences d0 k.
Proof.
  intros Hk. rewrite get_addPreferenceRaw.
  destruct (String.eqb_spec pref k) as [->|]; [|exact Hk].
  rewrite Hk. unfold registeredRaw.
  destruct (get preferences k) as [p|]; [|reflexivity].
  destruct (holdsTrue (raw_excludeFromHints p)); [reflexivity|].
  now rewrite mergedRaw_idem.
Qed.

Lemma foldRaw_settling prefs d :
  settlingRaw preferences d0 d ->
  settlingRaw preferences d0
              (fold_left (addPreferenceRaw preferences) prefs d).
Proof.
  revert d. induction prefs as [|pref prefs IH]; simpl; intros d Hd; auto.
  apply IH. now apply addPreferenceRaw_settling.
Qed.

Lemma foldRaw_stable prefs d k :
  get d k = registeredRaw preferences d0 k ->
  get (fold_left (addPreferenceRaw preferences) prefs d) k
  = registeredRaw preferences d0 k.
Proof.
  revert d. induction prefs as [|pref prefs IH]; simpl; intros d Hk; auto.
  apply IH. now apply addPreferenceRaw_stable.
Qed.

Lemma foldRaw_done prefs d k :
  settlingRaw preferences d0 d -> In k prefs ->
  get (fold_left (addPreferenceRaw preferences) prefs d) k
  = registeredRaw preferences d0 k.
Proof.
  revert d. induction prefs as [|pref prefs IH]; simpl; intros d Hd Hin.
  - contradiction.
  - destruct Hin as [->|Hin].
    + apply foldRaw_stable. now apply addPreferenceRaw_done.
    + apply IH; [now apply addPreferenceRaw_settling | exact Hin].
Qed.

(** The registry after the constructor, entry by entry. *)
Lemma get_PrefsCodeHints_raw k :
  get (PrefsCodeHints_raw preferences d0) k
  = registeredRaw preferences d0 k.
Proof.
  unfold PrefsCodeHints_raw.
  destruct (get preferences k) as [p|] eqn:Hp.
  - apply foldRaw_done; [intros k'; now left | now apply get_Some_key with p].
  - destruct (foldRaw_settling (Object_keys preferences) d0
                               (fun k' => or_introl eq_refl) k) as [H|H];
      rewrite H; [|reflexivity].
    unfold registeredRaw. now rewrite Hp.
Qed.

End RawFold.

Lemma builtinAmendedRaw_registered preferences d0 d k D :
  get d0 k = Some (builtinRaw D) ->
  get d k = registeredRaw preferences d0 k ->
  builtinAmendedRaw preferences d k D.
Proof.
  intros H0 Hd. unfold builtinAmendedRaw, registeredRaw in *.
  rewrite H0 in Hd.
  destruct (get preferences k) as [p|]; [|now exists (builtinRaw D)].
  destruct (holdsTrue (raw_excludeFromHints p)); [now exists (builtinRaw D)|].
  eexists; split; [exact Hd|].
  destruct p as [pt pd pv pvt pk pe]; unfold mergedRaw; simpl.
  destruct pk, pt, pd; simpl; repeat split; now destruct pv, pvt, pe.
Qed.

(** C10 (amended): after the constructor has run on any preference set,
    [data.language] and [data.path] are present; each is the built-in
    entry when no preference of that name is merged, and otherwise the
    built-in merged with that preference field by field: a field the
    preference defines, [null] included, takes the value of the
    preference, and a field it leaves undefined keeps the fixed value; a
    preference flagged [excludeFromHints] leaves the registry as it was
    under its name. *)
Theorem registry_builtins_merged (DL DP : string)
        (preferences : JsObject RawPreference) :
  let d := PrefsCodeHints_raw preferences (data0Raw DL DP) in
  builtinAmendedRaw preferences d "language" DL
  /\ builtinAmendedRaw preferences d "path" DP
  /\ forall k,
       match get preferences k with
       | Some p =>
           if holdsTrue (raw_excludeFromHints p)
           then get d k = get (data0Raw DL DP) k
           else get d k <> None
       | None => get d k = get (data0Raw DL DP) k
       end.
Proof.
  intros d. subst d. repeat split.
  - apply builtinAmendedRaw_registered with (data0Raw DL DP);
      [reflexivity | apply get_PrefsCodeHints_raw].
  - apply builtinAmendedRaw_registered with (data0Raw DL DP);
      [reflexivity | apply get_PrefsCodeHints_raw].
  - intros k. rewrite get_PrefsCodeHints_raw. unfold registeredRaw.
    destruct (get preferences k) as [p|]; [|reflexivity].
    destruct (holdsTrue (raw_excludeFromHints p)); [reflexivity | discriminate].
Qed.

Lemma registry_builtins_merged_witness :
  builtinAmendedRaw sampleRaw
    (PrefsCodeHints_raw sampleRaw (data0Raw "Language" "Path"))
    "path" "Path"
  /\ get (PrefsCodeHints_raw sampleRaw (data0Raw "Language" "Path"))
         "debug.hidden" = None.
Proof.
  pose proof (registry_builtins_merged "Language" "Path" sampleRaw)
    as [_ [Hpath Hexcl]].
  split; [exact Hpath | exact (Hexcl "debug.hidden")].
Defined.

(** C10 (as stated) fails: a preference named [language] that carries a
    description replaces the fixed description of the built-in entry. *)
Lemma registry_description_replaced_counterexample :
  ~ (forall (DL DP : string) (preferences : JsObject RawPreference),
        exists e,
          get (PrefsCodeHints_raw preferences (data0Raw DL DP)) "language"
          = Some e
          /\ raw_description e = Value DL).
Proof.
  intros H.
  destruct (H "Language" "Path" sampleRaw) as [e [Hget Hdesc]].
  vm_compute in Hget. inversion Hget; subst e. discriminate Hdesc.
Qed.

(** A preference that sets a field to [null] removes the built-in value:
    here the description of [path]. *)
Lemma registry_null_description :
  option_map raw_description
             (get (PrefsCodeHints_raw sampleRaw (data0Raw "Language" "Path"))
                  "path")
  = Some Null.
Proof. reflexivity. Qed.

(** *** The registry without null *)

Lemma get_viewRegistry (o : JsObject RawPreference) (k : string) :
  get (viewRegistry o) k = option_map viewPreference (get o k).
Proof. exact (get_map_values viewPreference o k). Qed.

Lemma isTrue_viewField (f : JsField bool) :
  isTrue (viewField f) = holdsTrue f.
Proof. now destruct f as [| |[|]]. Qed.

Lemma viewField_extend {A} (t s : JsField A) :
  notNull s ->
  viewField (extendRawField t s) = extendField (viewField t) (viewField s).
Proof. destruct s; simpl; auto. intros H. now destruct H. Qed.

Lemma viewPreference_merged (t : option RawPreference) (p : RawPreference) :
  nullFree p ->
  viewPreference (mergedRaw t p)
  = mergedEntry (option_map viewPreference t) (viewPreference p).
Proof.
  intros (Hty & Hd & Hv & Hvt & Hk & He).
  unfold mergedRaw, mergedEntry, extendRaw, extend, viewPreference.
  destruct t as [t|]; simpl;
    destruct (raw_keys p) eqn:Hkeys; simpl;
    rewrite ?viewField_extend by assumption; try reflexivity;
    now destruct Hk.
Qed.

(** For preferences without a field that holds [null], the registry built
    on the three-state fields, read as [getHints] reads it, is the
    registry [PrefsCodeHints_data] builds. *)
Lemma PrefsCodeHints_raw_view (preferences d0 : JsObject RawPreference)
      (k : string) :
  (forall k' p, get preferences k' = Some p -> nullFree p) ->
  option_map viewPreference (get (PrefsCodeHints_raw preferences d0) k)
  = get (PrefsCodeHints_data (viewRegistry preferences) (viewRegistry d0)) k.
Proof.
  intros Hfree.
  rewrite get_PrefsCodeHints_raw, get_PrefsCodeHints_data.
  unfold registeredRaw, registered. rewrite !get_viewRegistry.
  destruct (get preferences k) as [p|] eqn:Hp; simpl; [|reflexivity].
  rewrite isTrue_viewField.
  destruct (holdsTrue (raw_excludeFromHints p)); [reflexivity|].
  simpl. f_equal. apply viewPreference_merged. now apply (Hfree k).
Qed.
